(** * BertCppHandler: the batch-request lifecycle of [bert_handler.cc]

    A shallow embedding of [bert::BertCppHandler]
    (examples/cpp/aot_inductor/bert/src/bert_handler.cc): [LoadJsonFile],
    [GetJsonValue], [LoadModel], [Preprocess] and [Postprocess], with the
    properties of the handler's specification proved (or refuted) on it.

    Conventions of the embedding.
    - C++ [int] and [uint8_t] values are [Z] with the wrap-around of the
      conversion written out ([int], [uint8_t]).
    - [std::map] is stdpp's [gmap]; a [std::map<uint8_t, _>] is traversed in
      ascending key order, and its keys range over 0..255.
    - Code that mutates objects passed by reference is written in
      state-passing style: the objects are fields of a state record that the
      function takes and returns.
    - A C++ exception is a value of [exception]; a bare [throw;] executed
      while no exception is being handled calls [std::terminate()], which is a
      separate outcome ([Crashed std_terminate]) that no [catch] clause
      intercepts.
    - The tokenizer, torch, folly and the file system are collaborators of
      the handler whose code is not part of it: they are parameters of the
      development (Section variables), instantiated in the examples.
    - A tensor is modelled by value: its declared sizes and the elements it
      views at the time [from_blob] is called. *)

From Stdlib Require Import ZArith Lia Ascii String DecimalString.
From stdpp Require Import gmap strings list fin_maps.

Local Open Scope Z_scope.

(** ** Machine integers *)

(** Conversion to [uint8_t]: reduction modulo 2^8. *)
Definition uint8_t (z : Z) : Z := z mod 256.

(** Conversion to a 32-bit two's complement [int]. *)
Definition int (z : Z) : Z := (z + 2147483648) mod 4294967296 - 2147483648.

(** [std::to_string(int)]: the decimal representation. *)
Definition to_string (z : Z) : string := NilZero.string_of_int (Z.to_int z).

(** ** Exceptions, outcomes and the log *)

(** The two exception classes the handler catches. *)
Inductive exception : Type :=
  | runtime_error (what : string)
  | c10_Error (msg : string).

(** A call into a collaborator either returns or throws. *)
Abbreviation throws A := (A + exception)%type.

(** [TS_LOG(ERROR, ...)] / [TS_LOGF(ERROR, fmt, args...)]: the format string
    and its already stringified arguments. *)
Inductive log_entry : Type :=
  | ERROR (fmt : string) (args : list string).

(** ** Requests and responses *)

(** [torchserve::InferenceRequest]: the fields the handler reads.
    [parameters] maps a name to raw payload bytes ([std::vector<char>]). *)
Record InferenceRequest : Type := mkInferenceRequest {
  request_id : string;
  headers : gmap string string;
  parameters : gmap string (list ascii)
}.

(** Modelled from the spec: [torchserve::InferenceResponse] is declared
    outside the handler's source file. A Response is {request_id,
    status_code, content_type, body}; it is created per request before
    encoding succeeds and mutated in place by [SetResponse]. [answer] is
    [None] for the placeholder that no stage has written yet. *)
Record Answer : Type := mkAnswer {
  code : Z;
  header_key : string;
  header_val : string;
  msg : string
}.

Record InferenceResponse : Type := mkInferenceResponse {
  response_request_id : string;
  answer : option Answer
}.

(** [std::make_shared<torchserve::InferenceResponse>(request_id)] *)
Definition make_InferenceResponse (rid : string) : InferenceResponse :=
  {| response_request_id := rid; answer := None |}.

(** [response->SetResponse(code, header_key, header_val, msg)] *)
Definition SetResponse (new_code : Z) (new_header_key new_header_val new_msg : string)
    (r : InferenceResponse) : InferenceResponse :=
  {| response_request_id := response_request_id r;
     answer := Some {| code := new_code; header_key := new_header_key;
                       header_val := new_header_val; msg := new_msg |} |}.

(** [torchserve::Converter::VectorToStr]: the payload bytes as a string. *)
Definition VectorToStr (v : list ascii) : string := string_of_list_ascii v.

(** Modelled from the spec: the constants of [torchserve::PayloadType] are
    declared outside the handler's source file. The spec names a generic
    "data" parameter/header pair and a "body" pair, and the content-type
    tags written into responses. *)
Record PayloadType : Type := mkPayloadType {
  kPARAMETER_NAME_DATA : string;
  kPARAMETER_NAME_BODY : string;
  kHEADER_NAME_DATA_TYPE : string;
  kHEADER_NAME_BODY_TYPE : string;
  kCONTENT_TYPE_TEXT : string;
  kDATA_TYPE_STRING : string
}.

(** ** Tensors *)

(** A tensor: its declared sizes and the elements of the memory it views. *)
Record Tensor (A : Type) : Type := mkTensor {
  sizes : list Z;
  blob : list A
}.
Arguments mkTensor {A} _ _.
Arguments sizes {A} _.
Arguments blob {A} _.

(** [torch::from_blob(v.data(), n, options)] on a vector [v]: a one
    dimensional tensor of declared size [n] that views the memory of [v].
    The model keeps the declared size and the first [n] elements of [v]; how
    the element type of [options] regroups the elements of the vector is not
    modelled, so [blob] tells which ids the view starts at, not the numbers a
    reader of the tensor gets. *)
Definition from_blob {A} (data : list A) (n : Z) : Tensor A :=
  {| sizes := [n]; blob := take (Z.to_nat n) data |}.

(** [torch::from_blob(rows, {n, m})] on the vector of row tensors: a tensor
    declared [n] by [m] over the collected rows. *)
Definition from_blob_rows {A} (rows : list (Tensor A)) (n m : Z) : Tensor (Tensor A) :=
  {| sizes := [n; m]; blob := rows |}.

(** [torch::ones({n, m}, torch::kI32)], for sizes that are not negative
    (torch rejects a negative size; the handler passes the size of the batch
    and [max_length_]). *)
Definition ones (n m : Z) : Tensor Z :=
  {| sizes := [n; m]; blob := replicate (Z.to_nat (n * m)) 1 |}.

(** The number of rows of a tensor: its first declared size. *)
Definition rows {A} (t : Tensor A) : Z := hd 0 (sizes t).

(** ** The tokenizer *)

(** [tokenizers::Tokenizer]: an opaque text to token-id oracle. [Encode] may
    fail with an exception, which [Preprocess] catches per request. *)
Record Tokenizer : Type := mkTokenizer {
  Encode : string -> throws (list Z);
  TokenToId : string -> Z
}.

(** ** Control flow: exceptions and process termination *)

(** How the process dies when it does not continue: [std::terminate()]
    (a bare [throw;] with no exception being handled), or the dereference
    of a null [shared_ptr]. *)
Inductive crash : Type :=
  | std_terminate
  | null_dereference.

(** What running a piece of code leads to. *)
Inductive outcome (A : Type) : Type :=
  | Returned (a : A)
  | Thrown (e : exception)
  | Crashed (c : crash).
Arguments Returned {A} _.
Arguments Thrown {A} _.
Arguments Crashed {A} _.

(** Code that mutates a state [S] and returns, throws or crashes. *)
Definition M (S A : Type) : Type := S -> outcome A * S.

Definition ret {S A} (a : A) : M S A := fun s => (Returned a, s).

Definition bind {S A B} (m : M S A) (k : A -> M S B) : M S B :=
  fun s =>
    match m s with
    | (Returned a, s') => k a s'
    | (Thrown e, s') => (Thrown e, s')
    | (Crashed c, s') => (Crashed c, s')
    end.

(** [throw e;] *)
Definition throw {S A} (e : exception) : M S A := fun s => (Thrown e, s).

(** [throw;] outside of any handler. *)
Definition throw_nothing {S A} : M S A := fun s => (Crashed std_terminate, s).

(** The result of a collaborator's call, in the monad. *)
Definition call {S A} (r : throws A) : M S A :=
  match r with inl a => ret a | inr e => throw e end.

(** [try { m } catch (const std::runtime_error& e) { on_runtime e }
     catch (const c10::Error& e) { on_c10 e }] *)
Definition try_catch {S A} (m : M S A)
    (on_runtime : string -> M S A) (on_c10 : string -> M S A) : M S A :=
  fun s =>
    match m s with
    | (Thrown (runtime_error what), s') => on_runtime what s'
    | (Thrown (c10_Error m), s') => on_c10 m s'
    | r => r
    end.

(** Modification of the state. *)
Definition modify {S} (f : S -> S) : M S unit := fun s => (Returned tt, f s).
Definition gets {S A} (f : S -> A) : M S A := fun s => (Returned (f s), s).

Declare Scope handler_scope.
Delimit Scope handler_scope with handler.
Notation "x <- m ;; k" := (bind m (fun x => k))
  (at level 100, m at next level, right associativity) : handler_scope.
Notation "m ;;; k" := (bind m (fun _ => k))
  (at level 100, right associativity) : handler_scope.

(** [for (const auto& x : l) { body x }] *)
Fixpoint for_each {S X} (body : X -> M S unit) (l : list X) : M S unit :=
  match l with
  | [] => ret tt
  | x :: l' => bind (body x) (fun _ => for_each body l')
  end.

(** States that carry the log. *)
Class Logging (S : Type) : Type := write_log : log_entry -> S -> S.

(** [TS_LOG] / [TS_LOGF] *)
Definition TS_LOG {S} `{Logging S} (e : log_entry) : M S unit :=
  modify (write_log e).

(** Unfolds the operations of [M] in the goal and the hypotheses. *)
Ltac unfold_monad :=
  unfold try_catch, bind, call, ret, throw, throw_nothing, TS_LOG, modify, gets in *.

(** ** Collaborators *)

(** folly: [folly::dynamic], [folly::readFile], [folly::parseJson] and the
    accessors the handler uses. [find json key] is the lookup behind
    [json->find(key)] and the subscript [json[key]]. *)
Record Folly : Type := mkFolly {
  dynamic : Type;
  readFile : string -> option string;
  parseJson : string -> throws dynamic;
  find : dynamic -> string -> option dynamic;
  asInt : dynamic -> throws Z;
  asString : dynamic -> throws string
}.

(** torch: the rows of the engine's output tensor and [torch::argmax]. *)
Record Torch : Type := mkTorch {
  Logits : Type;
  argmax : Logits -> throws Z
}.

(** [torch::Device] *)
Record Device : Type := mkDevice {
  is_cuda : bool;
  str : string
}.

(** [torchserve::LoadModelRequest]: the fields the handler reads. *)
Record LoadModelRequest : Type := mkLoadModelRequest {
  model_dir : string;
  model_name : string;
  gpu_id : Z
}.

(** The two engine implementations and the remaining factories
    [LoadModel] calls. *)
Record Inductor : Type := mkInductor {
  Runner : Type;
  AOTIModelContainerRunnerCuda : string -> Z -> string -> throws Runner;
  AOTIModelContainerRunnerCpu : string -> throws Runner;
  GetTorchDevice : LoadModelRequest -> throws Device;
  FromBlobJSON : string -> throws Tokenizer
}.

(** [fmt::format("{}/{}", a, b)] *)
Definition format_path (a b : string) : string :=
  String.append a (String.append "/" b).

(** ** LoadJsonFile and GetJsonValue *)

Section Json.

Variable F : Folly.
Context {S : Type} `{Logging S}.

Local Open Scope handler_scope.

(** [BertCppHandler::LoadJsonFile]. When the file cannot be read the
    function logs and executes [throw;] with no exception being handled. *)
Definition LoadJsonFile (file_path : string) : M S (dynamic F) :=
  match readFile F file_path with
  | None => TS_LOG (ERROR "{}} not found" [file_path]) ;;; throw_nothing
  | Some content => call (parseJson F content)
  end.

(** [BertCppHandler::GetJsonValue]. When the key is absent the function
    logs and executes [throw;] with no exception being handled. *)
Definition GetJsonValue (json : dynamic F) (key : string) : M S (dynamic F) :=
  match find F json key with
  | Some v => ret v
  | None =>
      TS_LOG (ERROR "Required field {} not found in JSON." [key]) ;;;
      throw_nothing
  end.

End Json.

(** ** Preprocess *)

Module Preprocess.

(** The objects [Preprocess] mutates while it walks the batch:
    [response_batch], the two components of [idx_to_req_id], the vector
    [tokens_ivalue], the row cursor [idx], and the log. *)
Record state : Type := mkState {
  response_batch : gmap string InferenceResponse;
  first : string;
  second : gmap Z string;
  tokens_ivalue : list (Tensor Z);
  idx : Z;
  log : list log_entry
}.

(** What [Preprocess] returns and leaves behind: the two tensors of
    [batch_ivalue], and the final values of the objects passed by
    reference. *)
Record result : Type := mkResult {
  tokens : Tensor (Tensor Z);
  attention_mask : Tensor Z;
  final : state
}.

End Preprocess.

Module Postprocess.

(** The objects [Postprocess] mutates: [response_batch] and the log. *)
Record state : Type := mkState {
  response_batch : gmap string InferenceResponse;
  log : list log_entry
}.

#[global] Instance postprocess_logging : Logging state :=
  fun e st => {| response_batch := response_batch st; log := log st ++ [e] |}.

End Postprocess.

Module LoadModel.

(** The handler's fields, which [LoadModel] assigns one after the other
    ([None] is a null pointer), and the log. *)
Record state (F : Folly) : Type := mkState {
  mapping_json_ : option (dynamic F);
  config_json_ : option (dynamic F);
  max_length_ : Z;
  tokenizer_ : option Tokenizer;
  log : list log_entry
}.
Arguments mkState {F} _ _ _ _ _.
Arguments mapping_json_ {F} _.
Arguments config_json_ {F} _.
Arguments max_length_ {F} _.
Arguments tokenizer_ {F} _.
Arguments log {F} _.

#[global] Instance loadmodel_logging {F} : Logging (state F) :=
  fun e st =>
    {| mapping_json_ := mapping_json_ st; config_json_ := config_json_ st;
       max_length_ := max_length_ st; tokenizer_ := tokenizer_ st;
       log := log st ++ [e] |}.

End LoadModel.

Section Handler.

Variable PT : PayloadType.
Variable tokenizer_ : Tokenizer.
Variable max_length_ : Z.

(** [std::string::empty()] *)
Definition empty (s : string) : bool :=
  match s with EmptyString => true | String _ _ => false end.

(** Lines 85-94: the payload lookup. The "body" pair is consulted only when
    the "data" parameter is absent. *)
Definition find_payload (request : InferenceRequest)
    : option (list ascii) * option string :=
  let data_it := parameters request !! kPARAMETER_NAME_DATA PT in
  let dtype_it := headers request !! kHEADER_NAME_DATA_TYPE PT in
  match data_it with
  | None => (parameters request !! kPARAMETER_NAME_BODY PT,
             headers request !! kHEADER_NAME_BODY_TYPE PT)
  | Some _ => (data_it, dtype_it)
  end.

(** Lines 109-116: the length check. An over-length sequence is logged and
    left as it is; a shorter one is padded at the end with the id of the
    "<pad>" token; the result is paired with the log entries written. *)
Definition pad_token_ids (token_ids : list Z) : list Z * list log_entry :=
  let cur_token_ids_length := int (Z.of_nat (length token_ids)) in
  if cur_token_ids_length >? max_length_ then
    (token_ids,
     [ERROR "prompt too long ({} tokens, max {})"
            [to_string cur_token_ids_length; to_string max_length_]])
  else if cur_token_ids_length <? max_length_ then
    (token_ids ++ replicate (Z.to_nat (max_length_ - cur_token_ids_length))
                            (TokenToId tokenizer_ "<pad>"),
     [])
  else (token_ids, []).

(** Lines 117-118: the row tensor of a token sequence. *)
Definition row_tensor (token_ids : list Z) : Tensor Z :=
  from_blob (fst (pad_token_ids token_ids)) max_length_.

Import Preprocess.

(** Lines 78-134: the body of the loop over the batch, for one request. *)
Definition Preprocess_request (st : state) (request : InferenceRequest) : state :=
  let rid := request_id request in
  let response_batch' := <[rid := make_InferenceResponse rid]> (response_batch st) in
  let first' :=
    String.append (first st)
      (if empty (first st) then rid else String.append "," rid) in
  match find_payload request with
  | (Some data, Some _) =>
      match Encode tokenizer_ (VectorToStr data) with
      | inl token_ids =>
          {| response_batch := response_batch';
             first := first';
             second := <[idx st := rid]> (second st);
             tokens_ivalue := tokens_ivalue st ++ [row_tensor token_ids];
             idx := uint8_t (idx st + 1);
             log := log st ++ snd (pad_token_ids token_ids) |}
      | inr (runtime_error what) =>
          {| response_batch :=
               alter (SetResponse 500 "data_type" (kDATA_TYPE_STRING PT)
                        "runtime_error, failed to load tensor") rid response_batch';
             first := first';
             second := second st;
             tokens_ivalue := tokens_ivalue st;
             idx := idx st;
             log := log st ++
                    [ERROR "Failed to load tensor for request id: {}, error: {}"
                           [rid; what]] |}
      | inr (c10_Error m) =>
          {| response_batch :=
               alter (SetResponse 500 "data_type" (kDATA_TYPE_STRING PT)
                        "c10 error, failed to load tensor") rid response_batch';
             first := first';
             second := second st;
             tokens_ivalue := tokens_ivalue st;
             idx := idx st;
             log := log st ++
                    [ERROR "Failed to load tensor for request id: {}, c10 error: {}"
                           [rid; m]] |}
      end
  | _ =>
      {| response_batch :=
           alter (SetResponse 500 "data_type" (kCONTENT_TYPE_TEXT PT)
                    "Empty payload") rid response_batch';
         first := first';
         second := second st;
         tokens_ivalue := tokens_ivalue st;
         idx := idx st;
         log := log st ++ [ERROR "Empty payload for request id: {}" [rid]] |}
  end.

(** The state at loop entry: the caller's [idx_to_req_id] and
    [response_batch], no row yet, [idx = 0]. *)
Definition Preprocess_entry (idx_to_req_id : string * gmap Z string)
    (response_batch : gmap string InferenceResponse) : state :=
  {| response_batch := response_batch;
     first := fst idx_to_req_id;
     second := snd idx_to_req_id;
     tokens_ivalue := [];
     idx := 0;
     log := [] |}.

(** [for (auto& request : *request_batch) { ... }] *)
Definition Preprocess_loop (st : state) (request_batch : list InferenceRequest) : state :=
  fold_left Preprocess_request request_batch st.

(** [BertCppHandler::Preprocess] *)
Definition Preprocess (idx_to_req_id : string * gmap Z string)
    (request_batch : list InferenceRequest)
    (response_batch : gmap string InferenceResponse) : result :=
  let size := Z.of_nat (length request_batch) in
  let attention_mask := ones size max_length_ in
  let st := Preprocess_loop (Preprocess_entry idx_to_req_id response_batch) request_batch in
  {| tokens := from_blob_rows (tokens_ivalue st) size max_length_;
     attention_mask := attention_mask;
     final := st |}.

(** ** Postprocess *)

Variable F : Folly.
Variable T : Torch.
Variable mapping_json_ : dynamic F.

(** The entries of a [std::map<uint8_t, std::string>] in the order a
    range-based [for] visits them: ascending keys. *)
Definition entries (m : gmap Z string) : list (Z * string) :=
  omap (fun i => (fun v => (i, v)) <$> m !! i) (Z.of_nat <$> seq 0 256).

(** [data[i]]: row [i] of the output tensor; an index outside the tensor
    raises a [c10::Error]. *)
Definition select (data : Tensor (Logits T)) (i : Z) : throws (Logits T) :=
  match blob data !! Z.to_nat i with
  | Some out => inl out
  | None => inr (c10_Error "index out of range")
  end.

(** [response_batch[rid]->SetResponse(...)]: the subscript yields a null
    pointer when the batch has no response for [rid]. *)
Definition SetResponse_at (rid : string) (new_code : Z)
    (new_header_key new_header_val new_msg : string) : M Postprocess.state unit :=
  fun st =>
    match Postprocess.response_batch st !! rid with
    | Some response =>
        (Returned tt,
         {| Postprocess.response_batch :=
              <[rid := SetResponse new_code new_header_key new_header_val new_msg
                         response]> (Postprocess.response_batch st);
            Postprocess.log := Postprocess.log st |})
    | None => (Crashed null_dereference, st)
    end.

Local Open Scope handler_scope.

(** Lines 171-195: the body of the loop over the tracker, for one entry. *)
Definition Postprocess_kv (data : Tensor (Logits T)) (kv : Z * string)
    : M Postprocess.state unit :=
  try_catch
    (out <- call (select data (fst kv)) ;;
     y <- call (argmax T out) ;;
     let y_hat := int y in
     let predicted_idx := to_string y_hat in
     v <- GetJsonValue F mapping_json_ predicted_idx ;;
     label <- call (asString F v) ;;
     SetResponse_at (snd kv) 200 "data_type" (kDATA_TYPE_STRING PT) label)
    (fun what =>
       TS_LOG (ERROR "Failed to load tensor for request id: {}, error: {}"
                     [snd kv; what]) ;;;
       SetResponse_at (snd kv) 500 "data_type" (kDATA_TYPE_STRING PT)
         "runtime_error, failed to postprocess tensor")
    (fun m =>
       TS_LOG (ERROR "Failed to postprocess tensor for request id: {}, error: {}"
                     [snd kv; m]) ;;;
       SetResponse_at (snd kv) 500 "data_type" (kDATA_TYPE_STRING PT)
         "c10 error, failed to postprocess tensor").

(** [BertCppHandler::Postprocess] *)
Definition Postprocess (data : Tensor (Logits T)) (idx_to_req_id : string * gmap Z string)
    : M Postprocess.state unit :=
  for_each (Postprocess_kv data) (entries (snd idx_to_req_id)).

End Handler.

(** ** LoadModel *)

Section Loader.

Variable F : Folly.
Variable I : Inductor.

Import LoadModel.
Local Open Scope handler_scope.

(** Dereference of a [unique_ptr] field. *)
Definition deref {A} (p : option A) : M (state F) A :=
  match p with
  | Some a => ret a
  | None => fun st => (Crashed null_dereference, st)
  end.

(** [BertCppHandler::LoadModel] *)
Definition LoadModel (load_model_request : LoadModelRequest)
    : M (state F) (Runner I * Device) :=
  try_catch
    (device <- call (GetTorchDevice I load_model_request) ;;
     let mapFilePath := format_path (model_dir load_model_request) "index_to_name.json" in
     mapping <- LoadJsonFile F mapFilePath ;;
     modify (fun st => mkState (Some mapping) (config_json_ st) (max_length_ st)
                         (tokenizer_ st) (log st)) ;;;
     let configFilePath := format_path (model_dir load_model_request) "config.json" in
     config <- LoadJsonFile F configFilePath ;;
     modify (fun st => mkState (mapping_json_ st) (Some config) (max_length_ st)
                         (tokenizer_ st) (log st)) ;;;
     config_json <- bind (gets config_json_) deref ;;
     v <- GetJsonValue F config_json "max_length" ;;
     n <- call (asInt F v) ;;
     modify (fun st => mkState (mapping_json_ st) (config_json_ st) (int n)
                         (tokenizer_ st) (log st)) ;;;
     config_json <- bind (gets config_json_) deref ;;
     v <- GetJsonValue F config_json "tokenizer_path" ;;
     p <- call (asString F v) ;;
     let tokenizer_path := format_path (model_dir load_model_request) p in
     tokenizer_json <- LoadJsonFile F tokenizer_path ;;
     tokenizer_blob <- call (asString F tokenizer_json) ;;
     tokenizer <- call (FromBlobJSON I tokenizer_blob) ;;
     modify (fun st => mkState (mapping_json_ st) (config_json_ st) (max_length_ st)
                         (Some tokenizer) (log st)) ;;;
     config_json <- bind (gets config_json_) deref ;;
     v <- GetJsonValue F config_json "model_so_path" ;;
     p <- call (asString F v) ;;
     let model_so_path := format_path (model_dir load_model_request) p in
     if is_cuda device then
       runner <- call (AOTIModelContainerRunnerCuda I model_so_path 1 (str device)) ;;
       ret (runner, device)
     else
       runner <- call (AOTIModelContainerRunnerCpu I model_so_path) ;;
       ret (runner, device))
    (fun what =>
       TS_LOG (ERROR "loading the model: {}, device id: {}, error: {}"
                     [model_name load_model_request;
                      to_string (gpu_id load_model_request); what]) ;;;
       throw (runtime_error what))
    (fun m =>
       TS_LOG (ERROR "loading the model: {}, device id: {}, error: {}"
                     [model_name load_model_request;
                      to_string (gpu_id load_model_request); m]) ;;;
       throw (c10_Error m)).

End Loader.

(** ** Inference *)

(** The engine behind a model handle: [runner->run(inputs)] returns the
    vector of output tensors or throws. [Model] is what the
    [std::shared_ptr<void>] points to, [Output] an output tensor. *)
Record Engine : Type := mkEngine {
  Model : Type;
  Output : Type;
  run : Model -> Tensor (Tensor Z) * Tensor Z -> throws (list Output)
}.

(** What the caller of [Inference] receives: the tensor of a [return]
    statement, or nothing defined, because the subscript [[0]] was applied to
    an empty vector or because control reached the end of the function. *)
Inductive undefined : Type :=
  | subscript_of_empty_vector
  | no_return_statement.

Inductive received (A : Type) : Type :=
  | Value (a : A)
  | Undefined (u : undefined).
Arguments Value {A} _.
Arguments Undefined {A} _.

Section Inference.

Variable E : Engine.

Local Open Scope handler_scope.

(** [BertCppHandler::Inference]. Both [static_pointer_cast]s give the
    handle itself; the handlers log and fall out of the [try] statement, after
    which the function body ends without a [return]. *)
Definition Inference (model : Model E) (inputs : Tensor (Tensor Z) * Tensor Z)
    (device : Device) : M Postprocess.state (received (Output E)) :=
  try_catch
    (let runner := if is_cuda device then model else model in
     batch_output_tensor_vector <- call (run E runner inputs) ;;
     match batch_output_tensor_vector with
     | output :: _ => ret (Value output)
     | [] => ret (Undefined subscript_of_empty_vector)
     end)
    (fun what => TS_LOG (ERROR what []) ;;; ret (Undefined no_return_statement))
    (fun m =>
       TS_LOG (ERROR "Failed to apply inference on input, c10 error:{}" [m]) ;;;
       ret (Undefined no_return_statement)).

End Inference.

(** ** Vocabulary of the properties *)

Section Vocabulary.

Variable PT : PayloadType.
Variable tokenizer_ : Tokenizer.
Variable max_length_ : Z.

(** The token ids of a request that passes the payload check and whose
    tokenization returns: the requests [Preprocess] gives a row to. *)
Definition encoded (request : InferenceRequest) : option (list Z) :=
  match find_payload PT request with
  | (Some data, Some _) =>
      match Encode tokenizer_ (VectorToStr data) with
      | inl token_ids => Some token_ids
      | inr _ => None
      end
  | _ => None
  end.

(** The requests of a batch that are given a row, in arrival order. *)
Definition encoded_requests (request_batch : list InferenceRequest)
    : list InferenceRequest :=
  filter (fun request => is_Some (encoded request)) request_batch.

(** The requests of a batch that pass the payload check. *)
Definition has_payload (request : InferenceRequest) : Prop :=
  is_Some (fst (find_payload PT request)) ∧ is_Some (snd (find_payload PT request)).

#[global] Instance has_payload_dec request : Decision (has_payload request) :=
  and_dec _ _.

(** The response [Preprocess] leaves for a request. *)
Definition Preprocess_response (request : InferenceRequest) : InferenceResponse :=
  let placeholder := make_InferenceResponse (request_id request) in
  match find_payload PT request with
  | (Some data, Some _) =>
      match Encode tokenizer_ (VectorToStr data) with
      | inl _ => placeholder
      | inr (runtime_error _) =>
          SetResponse 500 "data_type" (kDATA_TYPE_STRING PT)
            "runtime_error, failed to load tensor" placeholder
      | inr (c10_Error _) =>
          SetResponse 500 "data_type" (kDATA_TYPE_STRING PT)
            "c10 error, failed to load tensor" placeholder
      end
  | _ =>
      SetResponse 500 "data_type" (kCONTENT_TYPE_TEXT PT) "Empty payload" placeholder
  end.

(** The 500 response of the payload check. *)
Definition empty_payload_response (rid : string) : InferenceResponse :=
  SetResponse 500 "data_type" (kCONTENT_TYPE_TEXT PT) "Empty payload"
    (make_InferenceResponse rid).

(** The aggregate id string after appending the ids [ids] to [s]
    (lines 81-83, iterated). *)
Definition append_ids (s : string) (ids : list string) : string :=
  fold_left (fun s rid => String.append s (if empty s then rid else String.append "," rid))
            ids s.

(** The tracker after recording the ids [ids] from cursor [idx] on
    (line 119, iterated). *)
Fixpoint record_rows (idx : Z) (ids : list string) (m : gmap Z string)
    : gmap Z string :=
  match ids with
  | [] => m
  | rid :: ids' => record_rows (uint8_t (idx + 1)) ids' (<[idx := rid]> m)
  end.

(** The ids from the first non-empty one on. *)
Fixpoint skip_empty (ids : list string) : list string :=
  match ids with
  | EmptyString :: ids' => skip_empty ids'
  | _ => ids
  end.

(** The spec's re-extraction of the unpadded region of a row: the ids before
    the first pad token. *)
Fixpoint unpadded_region (pad : Z) (row : list Z) : list Z :=
  match row with
  | [] => []
  | x :: row' => if x =? pad then [] else x :: unpadded_region pad row'
  end.

Variable F : Folly.
Variable T : Torch.
Variable mapping_json_ : dynamic F.

(** How the decoding of one output row ends. *)
Inductive row_result : Type :=
  | Label (label : string)
  | Failed (e : exception)
  | NoLabel (predicted_idx : string).

(** The decoding of row [i] of the output tensor (lines 172-179), as a
    function of the tensor and the label mapping alone. *)
Definition decode_row (data : Tensor (Logits T)) (i : Z) : row_result :=
  match select T data i with
  | inr e => Failed e
  | inl out =>
      match argmax T out with
      | inr e => Failed e
      | inl y =>
          let predicted_idx := to_string (int y) in
          match find F mapping_json_ predicted_idx with
          | None => NoLabel predicted_idx
          | Some v =>
              match asString F v with
              | inl label => Label label
              | inr e => Failed e
              end
          end
      end
  end.

(** The response [Postprocess] writes for a decoded row. *)
Definition row_response (rid : string) (r : row_result) : option InferenceResponse :=
  let answered c m :=
    Some {| response_request_id := rid;
            answer := Some {| code := c; header_key := "data_type";
                              header_val := kDATA_TYPE_STRING PT; msg := m |} |} in
  match r with
  | Label label => answered 200 label
  | Failed (runtime_error _) => answered 500 "runtime_error, failed to postprocess tensor"
  | Failed (c10_Error _) => answered 500 "c10 error, failed to postprocess tensor"
  | NoLabel _ => None
  end.


End Vocabulary.

(** ** A concrete handler for the examples *)

Module Demo.

Definition payload_type : PayloadType :=
  mkPayloadType "data" "body" "data_dtype" "body_dtype" "text" "string".

(** A tokenizer that maps each character to its code, rejects the empty
    text, and pads with 0. *)
Definition tokenizer : Tokenizer :=
  mkTokenizer
    (fun text =>
       match text with
       | EmptyString => inr (runtime_error "empty input")
       | _ => inl ((fun c => Z.of_N (N_of_ascii c)) <$> list_ascii_of_string text)
       end)
    (fun _ => 0).

Definition request (rid text : string) : InferenceRequest :=
  mkInferenceRequest rid {["data_dtype" := "string"]}
    {["data" := list_ascii_of_string text]}.

Definition request_without_payload (rid : string) : InferenceRequest :=
  mkInferenceRequest rid ∅ ∅.

(** "data" parameter without its header, next to a complete "body" pair. *)
Definition request_without_dtype (rid text : string) : InferenceRequest :=
  mkInferenceRequest rid {["body_dtype" := "string"]}
    {["data" := list_ascii_of_string text; "body" := list_ascii_of_string text]}.

(** [n] requests with a payload, numbered from [from]. *)
Definition numbered_requests (from n : nat) : list InferenceRequest :=
  (fun k => request (to_string (Z.of_nat k)) "hi") <$> seq from n.

#[warnings="-register-all"]
Inductive json : Type :=
  | JInt (z : Z)
  | JStr (s : string)
  | JObj (members : list (string * json)).

Fixpoint assoc {A} (key : string) (l : list (string * A)) : option A :=
  match l with
  | [] => None
  | (k, v) :: l' => if String.eqb k key then Some v else assoc key l'
  end.

(** The documents of a model directory, by content. *)
Definition documents (config : json) : list (string * json) :=
  [("MAPPING", JObj [("0", JStr "negative"); ("1", JStr "positive")]);
   ("CONFIG", config);
   ("TOKENIZER", JStr "blob")].

Definition files : list (string * string) :=
  [("model/index_to_name.json", "MAPPING");
   ("model/config.json", "CONFIG");
   ("model/tokenizer.json", "TOKENIZER")].

Definition folly (config : json) : Folly :=
  mkFolly json
    (fun path => assoc path files)
    (fun content =>
       match assoc content (documents config) with
       | Some j => inl j
       | None => inr (runtime_error "json parse error")
       end)
    (fun j key => match j with JObj members => assoc key members | _ => None end)
    (fun j => match j with JInt z => inl z | _ => inr (runtime_error "TypeError") end)
    (fun j => match j with JStr s => inl s | _ => inr (runtime_error "TypeError") end).

Definition complete_config : json :=
  JObj [("max_length", JInt 8); ("tokenizer_path", JStr "tokenizer.json");
        ("model_so_path", JStr "model.so")].

Definition config_without_tokenizer_path : json :=
  JObj [("max_length", JInt 8); ("model_so_path", JStr "model.so")].

Definition mapping : json :=
  JObj [("0", JStr "negative"); ("1", JStr "positive")].

(** The position of the first maximum of a row of scores. *)
Fixpoint argmax_from (best : Z) (best_at at_ : Z) (l : list Z) : Z :=
  match l with
  | [] => best_at
  | x :: l' =>
      if x >? best then argmax_from x at_ (at_ + 1) l'
      else argmax_from best best_at (at_ + 1) l'
  end.

Definition torch : Torch :=
  mkTorch (list Z)
    (fun out =>
       match out with
       | [] => inr (c10_Error "argmax of an empty tensor")
       | x :: l => inl (argmax_from x 0 1 l)
       end).

Definition inductor : Inductor :=
  mkInductor string
    (fun path _ _ => inl path)
    (fun path => inl path)
    (fun _ => inl (mkDevice false "cpu"))
    (fun blob => inl tokenizer).

Definition load_model_request : LoadModelRequest :=
  mkLoadModelRequest "model" "bert" (-1).

Definition unloaded (config : json) : LoadModel.state (folly config) :=
  LoadModel.mkState None None 0 None [].

End Demo.

(** * Properties *)

(** ** Machine integers *)

Lemma int_id z : -2147483648 <= z < 2147483648 -> int z = z.
Proof. intros Hz. unfold int. rewrite Z.mod_small; lia. Qed.

Lemma int_le z : 0 <= z -> int z <= z.
Proof.
  intros Hz. unfold int.
  pose proof (Z.mod_le (z + 2147483648) 4294967296). lia.
Qed.

Lemma uint8_t_range z : 0 <= uint8_t z < 256.
Proof. unfold uint8_t. apply Z.mod_pos_bound. lia. Qed.

Lemma uint8_t_succ i k :
  uint8_t (uint8_t (i + k) + 1) = uint8_t (i + (k + 1)).
Proof.
  unfold uint8_t. rewrite Zplus_mod_idemp_l. f_equal. lia.
Qed.

(** ** The loop of Preprocess, request by request *)

Section PreprocessFacts.

Variable PT : PayloadType.
Variable tokenizer_ : Tokenizer.
Variable max_length_ : Z.

Import Preprocess.

Local Abbreviation step := (Preprocess_request PT tokenizer_ max_length_).
Local Abbreviation loop := (Preprocess_loop PT tokenizer_ max_length_).
Local Abbreviation enc := (encoded PT tokenizer_).
Local Abbreviation row := (row_tensor tokenizer_ max_length_).

Lemma step_tokens_ivalue st r :
  tokens_ivalue (step st r) =
  tokens_ivalue st ++ match enc r with Some t => [row t] | None => [] end.
Proof.
  unfold Preprocess_request, encoded.
  destruct (find_payload PT r) as [[d|] [h|]]; simpl; try (by rewrite app_nil_r).
  destruct (Encode tokenizer_ (VectorToStr d)) as [t|[w|m]]; simpl;
    by rewrite ?app_nil_r.
Qed.

Lemma step_second st r :
  second (step st r) =
  match enc r with
  | Some _ => <[idx st := request_id r]> (second st)
  | None => second st
  end.
Proof.
  unfold Preprocess_request, encoded.
  destruct (find_payload PT r) as [[d|] [h|]]; simpl; try done.
  by destruct (Encode tokenizer_ (VectorToStr d)) as [t|[w|m]].
Qed.

Lemma step_idx st r :
  idx (step st r) =
  match enc r with Some _ => uint8_t (idx st + 1) | None => idx st end.
Proof.
  unfold Preprocess_request, encoded.
  destruct (find_payload PT r) as [[d|] [h|]]; simpl; try done.
  by destruct (Encode tokenizer_ (VectorToStr d)) as [t|[w|m]].
Qed.

Lemma step_first st r :
  first (step st r) =
  String.append (first st)
    (if empty (first st) then request_id r else String.append "," (request_id r)).
Proof.
  unfold Preprocess_request.
  destruct (find_payload PT r) as [[d|] [h|]]; simpl; try done.
  by destruct (Encode tokenizer_ (VectorToStr d)) as [t|[w|m]].
Qed.

Lemma step_response_batch st r :
  response_batch (step st r) =
  <[request_id r := Preprocess_response PT tokenizer_ r]> (response_batch st).
Proof.
  unfold Preprocess_request, Preprocess_response.
  destruct (find_payload PT r) as [[d|] [h|]]; simpl;
    try (by rewrite alter_insert_eq).
  destruct (Encode tokenizer_ (VectorToStr d)) as [t|[w|m]]; simpl;
    by rewrite ?alter_insert_eq.
Qed.

Lemma loop_app st l1 l2 : loop st (l1 ++ l2) = loop (loop st l1) l2.
Proof. apply fold_left_app. Qed.

Lemma loop_cons st r l : loop st (r :: l) = loop (step st r) l.
Proof. reflexivity. Qed.

Lemma loop_snoc st l r : loop st (l ++ [r]) = step (loop st l) r.
Proof. by rewrite loop_app. Qed.

Lemma encoded_requests_cons r l :
  encoded_requests PT tokenizer_ (r :: l) =
  match enc r with
  | Some _ => r :: encoded_requests PT tokenizer_ l
  | None => encoded_requests PT tokenizer_ l
  end.
Proof.
  unfold encoded_requests. rewrite filter_cons.
  destruct (enc r) as [t|] eqn:E; case_decide as H; try done.
  exfalso. apply H. by eexists.
Qed.

Lemma encoded_requests_app l1 l2 :
  encoded_requests PT tokenizer_ (l1 ++ l2) =
  encoded_requests PT tokenizer_ l1 ++ encoded_requests PT tokenizer_ l2.
Proof. apply filter_app. Qed.

Lemma encoded_requests_encoded r l :
  r ∈ encoded_requests PT tokenizer_ l -> is_Some (enc r).
Proof. unfold encoded_requests. rewrite list_elem_of_filter. tauto. Qed.

(** The rows collected are the rows of the encoded requests, in order. *)
Lemma loop_tokens_ivalue l : forall st,
  tokens_ivalue (loop st l) =
  tokens_ivalue st ++ omap (fun r => row <$> enc r) l.
Proof.
  induction l as [|r l IH]; intros st.
  - simpl. by rewrite app_nil_r.
  - rewrite loop_cons, IH, step_tokens_ivalue, <- app_assoc. f_equal.
    simpl. by destruct (enc r).
Qed.

Lemma omap_encoded_length l :
  length (omap (fun r => row <$> enc r) l) =
  length (encoded_requests PT tokenizer_ l).
Proof.
  induction l as [|r l IH]; [done|].
  rewrite encoded_requests_cons. simpl.
  destruct (enc r); simpl; by rewrite <- IH.
Qed.

(** The log is only ever extended, the tracker only ever updated. *)
Lemma loop_second l : forall st,
  second (loop st l) =
  record_rows (idx st) (request_id <$> encoded_requests PT tokenizer_ l) (second st).
Proof.
  induction l as [|r l IH]; intros st; [done|].
  rewrite loop_cons, IH, encoded_requests_cons, step_second, step_idx.
  by destruct (enc r).
Qed.

Lemma loop_idx l : forall st,
  0 <= idx st < 256 ->
  idx (loop st l) =
  uint8_t (idx st + Z.of_nat (length (encoded_requests PT tokenizer_ l))).
Proof.
  induction l as [|r l IH]; intros st Hst.
  - simpl. unfold uint8_t. rewrite Z.add_0_r, Z.mod_small; lia.
  - rewrite loop_cons, encoded_requests_cons. rewrite IH.
    + rewrite step_idx. destruct (enc r); [|done].
      simpl length. unfold uint8_t. rewrite Zplus_mod_idemp_l. f_equal. lia.
    + rewrite step_idx. destruct (enc r); [apply uint8_t_range|done].
Qed.

Lemma loop_first l : forall st,
  first (loop st l) = append_ids (first st) (request_id <$> l).
Proof.
  induction l as [|r l IH]; intros st; [done|].
  by rewrite loop_cons, IH, step_first.
Qed.

(** The response of an id is the one of the last request that carries it. *)
Lemma loop_response_batch_other l rid : forall st,
  rid ∉ request_id <$> l ->
  response_batch (loop st l) !! rid = response_batch st !! rid.
Proof.
  induction l as [|r l IH]; intros st Hrid; [done|].
  rewrite fmap_cons, not_elem_of_cons in Hrid. destruct Hrid as [Hne Hl].
  rewrite loop_cons, IH by done. rewrite step_response_batch.
  by rewrite lookup_insert_ne.
Qed.

Lemma loop_response_batch l1 r l2 st :
  request_id r ∉ request_id <$> l2 ->
  response_batch (loop st (l1 ++ r :: l2)) !! request_id r =
  Some (Preprocess_response PT tokenizer_ r).
Proof.
  intros Hl2. rewrite loop_app, loop_cons, loop_response_batch_other by done.
  rewrite step_response_batch. apply lookup_insert_eq.
Qed.

(** Every request of the batch has a response afterwards. *)
Lemma loop_response_batch_Some l : forall st rid,
  rid ∈ request_id <$> l ->
  exists r, r ∈ l /\ request_id r = rid /\
    response_batch (loop st l) !! rid = Some (Preprocess_response PT tokenizer_ r).
Proof.
  induction l as [|r l IH] using rev_ind; intros st rid Hrid.
  - by apply elem_of_nil in Hrid.
  - rewrite loop_snoc, step_response_batch.
    destruct (decide (request_id r = rid)) as [<-|Hne].
    + exists r. rewrite lookup_insert_eq. split_and!; try done.
      apply elem_of_app. right. by apply list_elem_of_singleton.
    + rewrite fmap_app, elem_of_app in Hrid. destruct Hrid as [Hrid|Hrid].
      * destruct (IH st rid Hrid) as (r' & Hr' & Hid & Hresp).
        exists r'. rewrite lookup_insert_ne by done. split_and!; try done.
        apply elem_of_app. by left.
      * simpl in Hrid. apply list_elem_of_singleton in Hrid. congruence.
Qed.

Lemma loop_idx_ext l : forall s1 s2,
  idx s1 = idx s2 -> idx (loop s1 l) = idx (loop s2 l).
Proof.
  induction l as [|r l IH]; intros s1 s2 Hi; [done|].
  rewrite !loop_cons. apply IH. by rewrite !step_idx, Hi.
Qed.

(** A request that is not encoded leaves rows, tracker and cursor as they
    were: the loop goes on as if the request had not been in the batch. *)
Lemma loop_skip st l1 r l2 :
  enc r = None ->
  tokens_ivalue (loop st (l1 ++ r :: l2)) = tokens_ivalue (loop st (l1 ++ l2)) /\
  second (loop st (l1 ++ r :: l2)) = second (loop st (l1 ++ l2)) /\
  idx (loop st (l1 ++ r :: l2)) = idx (loop st (l1 ++ l2)).
Proof.
  intros Hr. rewrite !loop_app, loop_cons.
  pose proof (step_tokens_ivalue (loop st l1) r) as Ht.
  pose proof (step_second (loop st l1) r) as Hs.
  pose proof (step_idx (loop st l1) r) as Hi.
  rewrite Hr in Ht, Hs, Hi. rewrite app_nil_r in Ht.
  split_and!.
  - by rewrite (loop_tokens_ivalue l2 (step _ _)),
       (loop_tokens_ivalue l2 (loop st l1)), Ht.
  - by rewrite (loop_second l2 (step _ _)), (loop_second l2 (loop st l1)), Hs, Hi.
  - by apply loop_idx_ext.
Qed.

End PreprocessFacts.

(** ** The tracker as a function of the ids recorded *)

Lemma record_rows_snoc ids : forall i rid m,
  0 <= i < 256 ->
  record_rows i (ids ++ [rid]) m =
  <[uint8_t (i + Z.of_nat (length ids)) := rid]> (record_rows i ids m).
Proof.
  induction ids as [|a ids IH]; intros i rid m Hi.
  - simpl. unfold uint8_t. by rewrite Z.add_0_r, Z.mod_small.
  - simpl app. simpl record_rows. rewrite IH by apply uint8_t_range.
    f_equal. unfold uint8_t. rewrite Zplus_mod_idemp_l. f_equal.
    simpl length. lia.
Qed.

(** The entry under key [j] is the last id recorded at a position congruent
    to [j] modulo 256. *)
Lemma tracker_lookup ids : forall j rid,
  record_rows 0 ids ∅ !! j = Some rid <->
  exists k : nat,
    ids !! k = Some rid /\ uint8_t (Z.of_nat k) = j /\
    forall k' : nat, (k < k' < length ids)%nat -> uint8_t (Z.of_nat k') <> j.
Proof.
  induction ids as [|x ids IH] using rev_ind; intros j rid.
  - simpl. rewrite lookup_empty. split; [done|]. by intros (k & Hk & _).
  - rewrite record_rows_snoc by lia. rewrite Z.add_0_l, length_app. simpl length.
    destruct (decide (uint8_t (Z.of_nat (length ids)) = j)) as [Hj|Hj].
    + rewrite Hj, lookup_insert_eq. split.
      * intros [= <-]. exists (length ids). split_and!; [|done|lia].
        by rewrite lookup_app_r, Nat.sub_diag by lia.
      * intros (k & Hk & Hkj & Hlast).
        destruct (decide (k = length ids)) as [->|Hne].
        { rewrite lookup_app_r, Nat.sub_diag in Hk by lia. simpl in Hk. congruence. }
        apply lookup_lt_Some in Hk. rewrite length_app in Hk. simpl in Hk.
        exfalso. apply (Hlast (length ids)); [lia|done].
    + rewrite lookup_insert_ne by done. rewrite IH. split.
      * intros (k & Hk & Hkj & Hlast). exists k.
        pose proof (lookup_lt_Some _ _ _ Hk) as Hlt.
        split_and!; [by rewrite lookup_app_l|done|].
        intros k' Hk'. destruct (decide (k' = length ids)) as [->|Hne]; [done|].
        apply Hlast. lia.
      * intros (k & Hk & Hkj & Hlast).
        pose proof (lookup_lt_Some _ _ _ Hk) as Hlt.
        rewrite length_app in Hlt. simpl in Hlt.
        destruct (decide (k = length ids)) as [->|Hne]; [done|].
        exists k. rewrite lookup_app_l in Hk by lia.
        split_and!; [done|done|]. intros k' Hk'. apply Hlast. lia.
Qed.

Lemma tracker_key_range ids j rid :
  record_rows 0 ids ∅ !! j = Some rid -> 0 <= j < 256.
Proof.
  rewrite tracker_lookup. intros (k & _ & <- & _). apply uint8_t_range.
Qed.

Lemma tracker_value ids j rid :
  record_rows 0 ids ∅ !! j = Some rid -> rid ∈ ids.
Proof.
  rewrite tracker_lookup. intros (k & Hk & _). by eapply list_elem_of_lookup_2.
Qed.

(** Up to 256 ids the tracker is the dense map from positions to ids. *)
Lemma tracker_dense ids (k : nat) :
  (length ids <= 256)%nat ->
  record_rows 0 ids ∅ !! Z.of_nat k = ids !! k.
Proof.
  intros Hlen. destruct (ids !! k) as [rid|] eqn:Hk.
  - pose proof (lookup_lt_Some _ _ _ Hk) as Hlt.
    apply tracker_lookup. exists k. split_and!; [done| |].
    + unfold uint8_t. rewrite Z.mod_small; lia.
    + intros k' Hk'. unfold uint8_t. rewrite Z.mod_small; lia.
  - apply lookup_ge_None in Hk.
    destruct (record_rows 0 ids ∅ !! Z.of_nat k) as [rid|] eqn:Ht; [|done].
    apply tracker_lookup in Ht. destruct Ht as (k0 & Hk0 & Hmod & _).
    apply lookup_lt_Some in Hk0. unfold uint8_t in Hmod.
    rewrite Z.mod_small in Hmod; lia.
Qed.

(** Every position below the number of ids has its key occupied. *)
Lemma tracker_occupied ids (k : nat) :
  (k < length ids)%nat ->
  is_Some (record_rows 0 ids ∅ !! uint8_t (Z.of_nat k)).
Proof.
  induction ids as [|x ids IH] using rev_ind; intros Hk; [simpl in Hk; lia|].
  rewrite record_rows_snoc by lia. rewrite Z.add_0_l.
  rewrite length_app in Hk. simpl in Hk.
  destruct (decide (uint8_t (Z.of_nat (length ids)) = uint8_t (Z.of_nat k)))
    as [->|Hne].
  - rewrite lookup_insert_eq. by eexists.
  - rewrite lookup_insert_ne by done. apply IH.
    destruct (decide (k = length ids)) as [->|]; [done|lia].
Qed.

(** Beyond 256 ids an early position holds the id of a later one. *)
Lemma tracker_overwritten ids (k : nat) :
  (k + 256 < length ids)%nat ->
  exists k' : nat,
    (k + 256 <= k')%nat /\ uint8_t (Z.of_nat k') = uint8_t (Z.of_nat k) /\
    is_Some (ids !! k') /\
    record_rows 0 ids ∅ !! uint8_t (Z.of_nat k) = ids !! k'.
Proof.
  intros Hk. destruct (tracker_occupied ids k) as [rid Hrid]; [lia|].
  pose proof Hrid as Hrid'. apply tracker_lookup in Hrid'.
  destruct Hrid' as (k0 & Hk0 & Hmod & Hlast).
  exists k0. split_and!; [|done|by eexists|congruence].
  destruct (decide (k + 256 <= k0)%nat) as [|Hlt]; [done|].
  exfalso. apply (Hlast (k + 256)%nat); [lia|].
  unfold uint8_t. rewrite Nat2Z.inj_add.
  change (Z.of_nat 256) with (1 * 256). by rewrite Z_mod_plus_full.
Qed.

(** With distinct ids, an entry's id is recorded under no other key. *)
Lemma tracker_injective ids i j rid :
  NoDup ids ->
  record_rows 0 ids ∅ !! i = Some rid ->
  record_rows 0 ids ∅ !! j = Some rid ->
  i = j.
Proof.
  intros Hnd Hi Hj. apply tracker_lookup in Hi, Hj.
  destruct Hi as (k1 & Hk1 & <- & _). destruct Hj as (k2 & Hk2 & <- & _).
  by rewrite (NoDup_lookup _ _ _ _ Hnd Hk1 Hk2).
Qed.

(** ** Strings *)

Lemma append_cons a s t : String.append (String a s) t = String a (String.append s t).
Proof. reflexivity. Qed.

Lemma append_assoc s1 s2 s3 :
  String.append (String.append s1 s2) s3 = String.append s1 (String.append s2 s3).
Proof.
  induction s1 as [|a s1 IH]; [reflexivity|].
  by rewrite !append_cons, IH.
Qed.

Lemma append_nonempty_l s t : s <> EmptyString -> String.append s t <> EmptyString.
Proof. destruct s; [done|]. intros _. by rewrite append_cons. Qed.

Lemma empty_false s : s <> EmptyString -> empty s = false.
Proof. by destruct s. Qed.

Lemma concat_cons_append sep x y l :
  String.concat sep (String.append x y :: l) =
  String.append x (String.concat sep (y :: l)).
Proof. destruct l; simpl; [done|]. by rewrite append_assoc. Qed.

(** Once the aggregate is non-empty every further id is appended after a
    comma. *)
Lemma append_ids_nonempty ids : forall s,
  s <> EmptyString -> append_ids s ids = String.concat "," (s :: ids).
Proof.
  induction ids as [|a ids IH]; intros s Hs; [done|].
  unfold append_ids. simpl fold_left. rewrite (empty_false s Hs).
  fold (append_ids (String.append s (String.append "," a)) ids).
  rewrite IH by by apply append_nonempty_l.
  rewrite concat_cons_append. simpl String.concat at 2. f_equal.
  by rewrite concat_cons_append.
Qed.

Lemma append_ids_empty ids :
  append_ids EmptyString ids = String.concat "," (skip_empty ids).
Proof.
  induction ids as [|a ids IH]; [done|].
  destruct a as [|c a].
  - simpl skip_empty. rewrite <- IH. reflexivity.
  - unfold append_ids. simpl fold_left. simpl skip_empty.
    fold (append_ids (String.append EmptyString (String c a)) ids).
    by rewrite append_ids_nonempty.
Qed.

Lemma skip_empty_id ids :
  Forall (fun rid => rid <> EmptyString) ids -> skip_empty ids = ids.
Proof. destruct 1 as [|[|c a] ids H]; done. Qed.

(** ** Padding *)

Section Padding.

Variable tokenizer_ : Tokenizer.
Variable max_length_ : Z.

Local Abbreviation pad := (TokenToId tokenizer_ "<pad>").

(** The row of a sequence at least as long as the width is its prefix. *)
Lemma row_tensor_long t :
  max_length_ <= int (Z.of_nat (length t)) ->
  row_tensor tokenizer_ max_length_ t =
  {| sizes := [max_length_]; blob := take (Z.to_nat max_length_) t |}.
Proof.
  intros Hlen. unfold row_tensor, pad_token_ids, from_blob.
  destruct (Z.gtb_spec (int (Z.of_nat (length t))) max_length_); [done|].
  destruct (Z.ltb_spec (int (Z.of_nat (length t))) max_length_); [lia|done].
Qed.

(** The row of a shorter sequence is the sequence followed by pad ids. *)
Lemma row_tensor_short t :
  Z.of_nat (length t) < max_length_ ->
  row_tensor tokenizer_ max_length_ t =
  {| sizes := [max_length_];
     blob := t ++ replicate (Z.to_nat max_length_ - length t) pad |}.
Proof.
  intros Hlen. unfold row_tensor, pad_token_ids, from_blob.
  pose proof (int_le (Z.of_nat (length t))) as Hint.
  destruct (Z.gtb_spec (int (Z.of_nat (length t))) max_length_); [lia|].
  destruct (Z.ltb_spec (int (Z.of_nat (length t))) max_length_); [|lia].
  simpl. f_equal. rewrite take_app, take_replicate.
  rewrite take_ge by lia. f_equal. f_equal. lia.
Qed.

(** Every row is declared, and is, [max_length_] wide. *)
Lemma row_tensor_width t :
  0 <= max_length_ ->
  sizes (row_tensor tokenizer_ max_length_ t) = [max_length_] /\
  Z.of_nat (length (blob (row_tensor tokenizer_ max_length_ t))) = max_length_.
Proof.
  intros Hmax. split; [done|].
  pose proof (int_le (Z.of_nat (length t))) as Hint.
  destruct (Z.lt_ge_cases (Z.of_nat (length t)) max_length_) as [Hlt|Hge].
  - rewrite row_tensor_short by done. simpl.
    rewrite length_app, length_replicate. lia.
  - unfold row_tensor, pad_token_ids, from_blob. simpl.
    destruct (Z.gtb_spec (int (Z.of_nat (length t))) max_length_); simpl.
    + rewrite length_take. lia.
    + destruct (Z.ltb_spec (int (Z.of_nat (length t))) max_length_); simpl.
      * rewrite length_take, length_app, length_replicate. lia.
      * rewrite length_take. lia.
Qed.

Lemma unpadded_region_app t n :
  pad ∉ t -> unpadded_region pad (t ++ replicate n pad) = t.
Proof.
  induction t as [|x t IH]; intros Hpad.
  - destruct n; simpl; [done|]. by rewrite Z.eqb_refl.
  - apply not_elem_of_cons in Hpad. destruct Hpad as [Hx Ht]. simpl.
    destruct (Z.eqb_spec x pad); [done|]. by rewrite IH.
Qed.

Lemma unpadded_region_shorter t l :
  pad ∈ t -> (length (unpadded_region pad (t ++ l)) < length t)%nat.
Proof.
  induction t as [|x t IH]; intros Hpad; [by apply elem_of_nil in Hpad|].
  simpl. destruct (Z.eqb_spec x pad); simpl; [lia|].
  apply elem_of_cons in Hpad. destruct Hpad as [?|Hpad]; [congruence|].
  specialize (IH Hpad). lia.
Qed.

End Padding.

(** C7 (as amended). For every token sequence shorter than [max_length_],
    padding it on the right with the pad token id up to [max_length_] (the
    row [Preprocess] builds) and re-extracting the ids before the first pad
    token gives the sequence back exactly when the sequence itself contains
    no pad token id. *)
Theorem padding_roundtrip (tokenizer_ : Tokenizer) (max_length_ : Z) (t : list Z) :
  Z.of_nat (length t) < max_length_ ->
  unpadded_region (TokenToId tokenizer_ "<pad>")
    (blob (row_tensor tokenizer_ max_length_ t)) = t
  <-> TokenToId tokenizer_ "<pad>" ∉ t.
Proof.
  intros Hlen. rewrite row_tensor_short by done. simpl. split.
  - intros Heq Hpad.
    pose proof (unpadded_region_shorter tokenizer_ t
      (replicate (Z.to_nat max_length_ - length t) (TokenToId tokenizer_ "<pad>"))
      Hpad) as Hlt.
    rewrite Heq in Hlt. lia.
  - apply unpadded_region_app.
Qed.

Lemma padding_roundtrip_witness :
  unpadded_region (TokenToId Demo.tokenizer "<pad>")
    (blob (row_tensor Demo.tokenizer 8 [104; 105; 33])) = [104; 105; 33]
  <-> TokenToId Demo.tokenizer "<pad>" ∉ [104; 105; 33].
Proof. apply (padding_roundtrip Demo.tokenizer 8 [104; 105; 33]). simpl. lia. Defined.

(** C7 (as stated) fails: a sequence shorter than [max_length_] that
    contains the pad token id is cut at that id by the re-extraction. *)
Lemma padding_roundtrip_counterexample :
  Z.of_nat (length [104; 0; 105]) < 8 /\
  blob (row_tensor Demo.tokenizer 8 [104; 0; 105]) = [104; 0; 105; 0; 0; 0; 0; 0] /\
  unpadded_region (TokenToId Demo.tokenizer "<pad>")
    (blob (row_tensor Demo.tokenizer 8 [104; 0; 105])) = [104] /\
  unpadded_region (TokenToId Demo.tokenizer "<pad>")
    (blob (row_tensor Demo.tokenizer 8 [104; 0; 105])) <> [104; 0; 105].
Proof. split_and!; [simpl; lia|reflexivity|reflexivity|discriminate]. Qed.

(** ** Requests without a payload *)

Section PayloadFacts.

Variable PT : PayloadType.
Variable tokenizer_ : Tokenizer.
Variable max_length_ : Z.

Import Preprocess.

Local Abbreviation step := (Preprocess_request PT tokenizer_ max_length_).
Local Abbreviation loop := (Preprocess_loop PT tokenizer_ max_length_).
Local Abbreviation enc := (encoded PT tokenizer_).

Lemma encoded_has_payload r : is_Some (enc r) -> has_payload PT r.
Proof.
  unfold encoded, has_payload.
  destruct (find_payload PT r) as [[d|] [h|]]; simpl; intros [t Ht]; done.
Qed.

Lemma not_has_payload_encoded r : ~ has_payload PT r -> enc r = None.
Proof.
  intros Hr. destruct (enc r) eqn:E; [|done].
  exfalso. apply Hr, encoded_has_payload. by eexists.
Qed.

(** What the loop body does with a request that fails the payload check. *)
Lemma step_empty_payload st r :
  ~ has_payload PT r ->
  step st r =
  {| response_batch :=
       <[request_id r := empty_payload_response PT (request_id r)]> (response_batch st);
     first := String.append (first st)
                (if empty (first st) then request_id r
                 else String.append "," (request_id r));
     second := second st;
     tokens_ivalue := tokens_ivalue st;
     idx := idx st;
     log := log st ++ [ERROR "Empty payload for request id: {}" [request_id r]] |}.
Proof.
  unfold has_payload, Preprocess_request, empty_payload_response.
  destruct (find_payload PT r) as [[d|] [h|]]; simpl; intros Hr;
    try (by rewrite alter_insert_eq).
  exfalso. apply Hr. split; by eexists.
Qed.

(** When the tokenizer fails on no payload of the batch, the encoded
    requests are the requests with a payload. *)
Lemma encoded_requests_has_payload l :
  (forall r, r ∈ l -> has_payload PT r -> is_Some (enc r)) ->
  encoded_requests PT tokenizer_ l = filter (has_payload PT) l.
Proof.
  induction l as [|r l IH]; intros Hl; [done|].
  rewrite encoded_requests_cons, filter_cons.
  rewrite IH by (intros r' Hr'; apply Hl; by right).
  destruct (decide (has_payload PT r)) as [Hr|Hr].
  - destruct (Hl r) as [t ->]; [by left|done|done].
  - by rewrite not_has_payload_encoded.
Qed.

(** The consequences of failing the payload check, for a request [r]
    between [batch1] and [batch2]. *)
Lemma excluded_from_batch idx_to_req_id rb batch1 r batch2 :
  ~ has_payload PT r ->
  let before := loop (Preprocess_entry idx_to_req_id rb) batch1 in
  let st := final (Preprocess PT tokenizer_ max_length_ idx_to_req_id
                     (batch1 ++ r :: batch2) rb) in
  let without := final (Preprocess PT tokenizer_ max_length_ idx_to_req_id
                          (batch1 ++ batch2) rb) in
  (response_batch (step before r) !! request_id r =
     Some (empty_payload_response PT (request_id r)) /\
   log (step before r) =
     log before ++ [ERROR "Empty payload for request id: {}" [request_id r]]) /\
  (second (step before r) = second before /\
   idx (step before r) = idx before /\
   tokens_ivalue (step before r) = tokens_ivalue before) /\
  (tokens_ivalue st = tokens_ivalue without /\
   second st = second without /\
   idx st = idx without) /\
  (length (tokens_ivalue st) =
     length (encoded_requests PT tokenizer_ (batch1 ++ batch2)) /\
   ((forall r', r' ∈ batch1 ++ r :: batch2 -> has_payload PT r' -> is_Some (enc r')) ->
    length (tokens_ivalue st) =
      length (filter (has_payload PT) (batch1 ++ r :: batch2)))) /\
  (request_id r ∉ request_id <$> batch2 ->
   response_batch st !! request_id r =
     Some (empty_payload_response PT (request_id r))).
Proof.
  intros Hr before st without. subst before st without. unfold Preprocess. simpl.
  rewrite (step_empty_payload _ r Hr). simpl.
  pose proof (not_has_payload_encoded r Hr) as Henc.
  split_and!; try done.
  - apply lookup_insert_eq.
  - by apply loop_skip.
  - by apply loop_skip.
  - by apply loop_skip.
  - rewrite loop_tokens_ivalue. simpl.
    rewrite omap_encoded_length, !encoded_requests_app, encoded_requests_cons.
    by rewrite Henc.
  - intros Htotal. rewrite loop_tokens_ivalue. simpl.
    by rewrite omap_encoded_length, encoded_requests_has_payload.
  - intros Hlater. rewrite loop_response_batch by done.
    unfold Preprocess_response, empty_payload_response.
    unfold has_payload in Hr.
    destruct (find_payload PT r) as [[d|] [h|]]; simpl in *; try done.
    exfalso. apply Hr. split; by eexists.
Qed.

End PayloadFacts.

(** C4 fails on the code in its row count. A request with neither the "data"
    nor the "body" parameter is answered with status 500 and the message
    "Empty payload", gets no tracker entry and no collected row, and the
    requests after it are encoded; but the tensor that is returned is
    declared with one row per request of the batch. Here two of three
    requests have a payload: two rows are collected, and the tensor is
    declared 3 by 8. *)
Example missing_payload_row_count :
  let batch := [Demo.request "a" "hello"; Demo.request_without_payload "b";
                Demo.request "c" "hi"] in
  let res := Preprocess Demo.payload_type Demo.tokenizer 8 (EmptyString, ∅) batch ∅ in
  Preprocess.response_batch (Preprocess.final res) !! "b" =
    Some {| response_request_id := "b";
            answer := Some {| code := 500; header_key := "data_type";
                              header_val := "text"; msg := "Empty payload" |} |} /\
  Preprocess.second (Preprocess.final res) = {[0 := "a"; 1 := "c"]} /\
  length (Preprocess.tokens_ivalue (Preprocess.final res)) = 2%nat /\
  length (filter (has_payload Demo.payload_type) batch) = 2%nat /\
  blob (Preprocess.tokens res) = Preprocess.tokens_ivalue (Preprocess.final res) /\
  sizes (Preprocess.tokens res) = [3; 8] /\
  rows (Preprocess.tokens res) = 3.
Proof. by vm_compute. Qed.

(** C8. A request that has the "data" parameter but not the data-type
    header fails the payload check whatever its "body" pair is: the lookup
    does not fall back to the "body" pair, the request is answered with
    status 500 and the message "Empty payload", the empty payload is logged,
    and the request gets no row: tracker, cursor and collected rows are left
    as they were. The 500 response is the final one unless a later request
    reuses the id. *)
Theorem data_without_dtype_no_fallback (PT : PayloadType) (tokenizer_ : Tokenizer)
    (max_length_ : Z) (idx_to_req_id : string * gmap Z string)
    (rb : gmap string InferenceResponse)
    (batch1 : list InferenceRequest) (r : InferenceRequest)
    (batch2 : list InferenceRequest) (data : list ascii) :
  parameters r !! kPARAMETER_NAME_DATA PT = Some data ->
  headers r !! kHEADER_NAME_DATA_TYPE PT = None ->
  let step := Preprocess_request PT tokenizer_ max_length_ in
  let before :=
    Preprocess_loop PT tokenizer_ max_length_ (Preprocess_entry idx_to_req_id rb) batch1 in
  let st := Preprocess.final (Preprocess PT tokenizer_ max_length_ idx_to_req_id
                                (batch1 ++ r :: batch2) rb) in
  let without := Preprocess.final (Preprocess PT tokenizer_ max_length_ idx_to_req_id
                                     (batch1 ++ batch2) rb) in
  find_payload PT r = (Some data, None) /\
  (Preprocess.response_batch (step before r) !! request_id r =
     Some {| response_request_id := request_id r;
             answer := Some {| code := 500; header_key := "data_type";
                               header_val := kCONTENT_TYPE_TEXT PT;
                               msg := "Empty payload" |} |} /\
   Preprocess.log (step before r) =
     Preprocess.log before ++
     [ERROR "Empty payload for request id: {}" [request_id r]]) /\
  (Preprocess.second (step before r) = Preprocess.second before /\
   Preprocess.idx (step before r) = Preprocess.idx before /\
   Preprocess.tokens_ivalue (step before r) = Preprocess.tokens_ivalue before) /\
  (Preprocess.tokens_ivalue st = Preprocess.tokens_ivalue without /\
   Preprocess.second st = Preprocess.second without) /\
  (request_id r ∉ request_id <$> batch2 ->
   Preprocess.response_batch st !! request_id r =
     Some {| response_request_id := request_id r;
             answer := Some {| code := 500; header_key := "data_type";
                               header_val := kCONTENT_TYPE_TEXT PT;
                               msg := "Empty payload" |} |}).
Proof.
  intros Hdata Hdtype.
  assert (find_payload PT r = (Some data, None)) as Hfind.
  { unfold find_payload. by rewrite Hdata, Hdtype. }
  assert (~ has_payload PT r) as Hr.
  { unfold has_payload. rewrite Hfind. simpl. intros [_ [? ?]]. done. }
  destruct (excluded_from_batch PT tokenizer_ max_length_ idx_to_req_id rb
              batch1 r batch2 Hr) as ((H1 & H1') & H2 & (H3 & H4 & _) & _ & H5).
  split_and!; try done; apply H2.
Qed.

Lemma data_without_dtype_no_fallback_witness :
  parameters (Demo.request_without_dtype "b" "hello")
    !! kPARAMETER_NAME_DATA Demo.payload_type = Some (list_ascii_of_string "hello") /\
  headers (Demo.request_without_dtype "b" "hello")
    !! kHEADER_NAME_DATA_TYPE Demo.payload_type = None /\
  is_Some (parameters (Demo.request_without_dtype "b" "hello")
             !! kPARAMETER_NAME_BODY Demo.payload_type) /\
  is_Some (headers (Demo.request_without_dtype "b" "hello")
             !! kHEADER_NAME_BODY_TYPE Demo.payload_type) /\
  let st := Preprocess.final
              (Preprocess Demo.payload_type Demo.tokenizer 8 (EmptyString, ∅)
                 ([Demo.request "a" "hello"] ++
                  Demo.request_without_dtype "b" "hello" :: []) ∅) in
  Preprocess.second st =
    Preprocess.second
      (Preprocess.final
         (Preprocess Demo.payload_type Demo.tokenizer 8 (EmptyString, ∅)
            ([Demo.request "a" "hello"] ++ []) ∅)) /\
  Preprocess.response_batch st !! "b" =
    Some {| response_request_id := "b";
            answer := Some {| code := 500; header_key := "data_type";
                              header_val := "text"; msg := "Empty payload" |} |}.
Proof.
  split; [reflexivity|]. split; [reflexivity|].
  split; [by eexists|]. split; [by eexists|].
  destruct (data_without_dtype_no_fallback Demo.payload_type Demo.tokenizer 8
              (EmptyString, ∅) ∅ [Demo.request "a" "hello"]
              (Demo.request_without_dtype "b" "hello") [] _ eq_refl eq_refl)
    as (_ & _ & _ & [_ Hsecond] & Hfinal).
  split; [exact Hsecond|].
  apply Hfinal. simpl. apply not_elem_of_nil.
Defined.

(** ** The aggregate id string *)

(** C10. The aggregate id string grows by the id of every request, in
    arrival order, before the payload is looked at: whatever becomes of the
    request, the loop body appends its id, after a comma once the string is
    not empty. Starting from the empty string the result is the
    comma-separated list of the ids of all requests of the batch (from the
    first non-empty id on), while the tracker holds ids of encoded requests
    only. *)
Theorem aggregate_ids_of_all_requests (PT : PayloadType) (tokenizer_ : Tokenizer)
    (max_length_ : Z) (rb : gmap string InferenceResponse)
    (batch : list InferenceRequest) :
  let st := Preprocess.final
              (Preprocess PT tokenizer_ max_length_ (EmptyString, ∅) batch rb) in
  (forall st' r,
     Preprocess.first (Preprocess_request PT tokenizer_ max_length_ st' r) =
     String.append (Preprocess.first st')
       (if empty (Preprocess.first st') then request_id r
        else String.append "," (request_id r))) /\
  Preprocess.first st = String.concat "," (skip_empty (request_id <$> batch)) /\
  (Forall (fun r => request_id r <> EmptyString) batch ->
   Preprocess.first st = String.concat "," (request_id <$> batch)) /\
  (forall j rid, Preprocess.second st !! j = Some rid ->
     rid ∈ request_id <$> encoded_requests PT tokenizer_ batch).
Proof.
  intros st. subst st. unfold Preprocess. simpl. split_and!.
  - intros st' r. apply step_first.
  - rewrite loop_first. simpl. apply append_ids_empty.
  - intros Hids. rewrite loop_first. simpl. rewrite append_ids_empty.
    rewrite skip_empty_id; [done|]. by apply Forall_fmap.
  - intros j rid. rewrite loop_second. simpl. apply tracker_value.
Qed.

Lemma aggregate_ids_of_all_requests_witness :
  Forall (fun r => request_id r <> EmptyString)
    [Demo.request "a" "hello"; Demo.request_without_payload "b"] /\
  let st := Preprocess.final
              (Preprocess Demo.payload_type Demo.tokenizer 8 (EmptyString, ∅)
                 [Demo.request "a" "hello"; Demo.request_without_payload "b"] ∅) in
  Preprocess.first st = "a,b".
Proof.
  assert (Forall (fun r => request_id r <> EmptyString)
            [Demo.request "a" "hello"; Demo.request_without_payload "b"]) as Hids.
  { repeat constructor; discriminate. }
  split; [exact Hids|].
  destruct (aggregate_ids_of_all_requests Demo.payload_type Demo.tokenizer 8 ∅
              [Demo.request "a" "hello"; Demo.request_without_payload "b"])
    as (_ & _ & Hfirst & _).
  exact (Hfirst Hids).
Defined.

(** The aggregate names a request the tracker does not hold. *)
Example aggregate_ids_include_failed_request :
  let st := Preprocess.final
              (Preprocess Demo.payload_type Demo.tokenizer 8 (EmptyString, ∅)
                 [Demo.request "a" "hello"; Demo.request_without_payload "b"] ∅) in
  Preprocess.first st = "a,b" /\ Preprocess.second st = {[0 := "a"]}.
Proof. by vm_compute. Qed.

(** ** The 8-bit row cursor *)

(** C9. The row cursor is an 8-bit unsigned integer. In a batch with more
    than 256 encoded requests the cursor ends at the count modulo 256, the
    request encoded at position [k] is recorded under the key [k mod 256],
    an entry of the tracker is the last id recorded under its key, every
    position [k] with [k + 256] below the count holds the id of a later
    request, and the tracker is not the dense map of positions to ids: all
    its keys are below 256 although position 256 was assigned. *)
Theorem row_index_wraps (PT : PayloadType) (tokenizer_ : Tokenizer)
    (max_length_ : Z) (first0 : string) (rb : gmap string InferenceResponse)
    (batch : list InferenceRequest) :
  let entry := Preprocess_entry (first0, ∅) rb in
  let st := Preprocess.final
              (Preprocess PT tokenizer_ max_length_ (first0, ∅) batch rb) in
  let ids := request_id <$> encoded_requests PT tokenizer_ batch in
  (256 < length ids)%nat ->
  Preprocess.idx st = Z.of_nat (length ids) mod 256 /\
  (forall batch1 r batch2,
     batch = batch1 ++ r :: batch2 ->
     is_Some (encoded PT tokenizer_ r) ->
     Preprocess.second
       (Preprocess_loop PT tokenizer_ max_length_ entry (batch1 ++ [r]))
       !! (Z.of_nat (length (encoded_requests PT tokenizer_ batch1)) mod 256) =
     Some (request_id r)) /\
  (forall j rid,
     Preprocess.second st !! j = Some rid <->
     exists k : nat,
       ids !! k = Some rid /\ Z.of_nat k mod 256 = j /\
       forall k' : nat, (k < k' < length ids)%nat -> Z.of_nat k' mod 256 <> j) /\
  (forall k : nat,
     (k + 256 < length ids)%nat ->
     exists k' : nat,
       (k + 256 <= k')%nat /\ Z.of_nat k' mod 256 = Z.of_nat k mod 256 /\
       is_Some (ids !! k') /\
       Preprocess.second st !! (Z.of_nat k mod 256) = ids !! k') /\
  (forall j rid, Preprocess.second st !! j = Some rid -> 0 <= j < 256) /\
  Preprocess.second st !! 256 = None /\
  is_Some (ids !! 256%nat).
Proof.
  intros entry st ids Hlen. subst entry st ids. unfold Preprocess. simpl.
  rewrite loop_second. simpl. split_and!.
  - rewrite loop_idx by (simpl; lia). simpl. by rewrite length_fmap.
  - intros batch1 r batch2 _ [t Hr].
    rewrite loop_second. simpl.
    rewrite encoded_requests_app, encoded_requests_cons, Hr, fmap_app. simpl.
    rewrite record_rows_snoc by lia.
    rewrite Z.add_0_l, length_fmap. apply lookup_insert_eq.
  - apply tracker_lookup.
  - intros k Hk. by apply tracker_overwritten.
  - apply tracker_key_range.
  - destruct (record_rows 0 _ ∅ !! 256) as [rid|] eqn:E; [|done].
    apply tracker_key_range in E. lia.
  - by apply lookup_lt_is_Some_2.
Qed.

Lemma row_index_wraps_witness :
  let batch := Demo.numbered_requests 0 257 in
  let st := Preprocess.final
              (Preprocess Demo.payload_type Demo.tokenizer 8 (EmptyString, ∅) batch ∅) in
  (256 < length (request_id <$> encoded_requests Demo.payload_type Demo.tokenizer
                                  batch))%nat /\
  Preprocess.idx st = 1 /\
  Preprocess.second st !! 0 = Some "256" /\
  Preprocess.second st !! 256 = None.
Proof.
  intros batch st.
  assert (256 < length (request_id <$> encoded_requests Demo.payload_type
                          Demo.tokenizer batch))%nat as Hlen.
  { vm_compute. apply le_n. }
  split; [exact Hlen|].
  destruct (row_index_wraps Demo.payload_type Demo.tokenizer 8 EmptyString ∅
              batch Hlen) as (Hidx & Hrecorded & _ & _ & _ & Hnone & _).
  split; [|split].
  - etrans; [exact Hidx|]. vm_compute. reflexivity.
  - assert (is_Some (encoded Demo.payload_type Demo.tokenizer (Demo.request "256" "hi")))
      as Hr by by eexists.
    exact (Hrecorded (Demo.numbered_requests 0 256) (Demo.request "256" "hi") []
             eq_refl Hr).
  - exact Hnone.
Defined.

(** With 257 encoded requests, key 0 holds the id of the last request and
    the cursor is back at 1, while 257 rows were collected. *)
Example row_index_wraps_257 :
  let st := Preprocess.final
              (Preprocess Demo.payload_type Demo.tokenizer 8 (EmptyString, ∅)
                 (Demo.numbered_requests 0 257) ∅) in
  Preprocess.second st !! 0 = Some "256" /\
  Preprocess.second st !! 1 = Some "1" /\
  Preprocess.idx st = 1 /\
  length (Preprocess.tokens_ivalue st) = 257%nat /\
  size (Preprocess.second st) = 256%nat.
Proof. by vm_compute. Qed.

(** ** The loop of Postprocess, entry by entry *)

Section PostprocessFacts.

Variable PT : PayloadType.
Variable F : Folly.
Variable T : Torch.
Variable mapping_json_ : dynamic F.
Variable data : Tensor (Logits T).

Local Abbreviation body := (Postprocess_kv PT F T mapping_json_ data).
Local Abbreviation decode := (decode_row F T mapping_json_ data).

(** The loop body on a row whose predicted index has no label: [throw;]
    ends the process, and no response is written. *)
Lemma Postprocess_kv_no_label i rid st p :
  decode i = NoLabel p ->
  body (i, rid) st =
  (Crashed std_terminate,
   {| Postprocess.response_batch := Postprocess.response_batch st;
      Postprocess.log :=
        Postprocess.log st ++ [ERROR "Required field {} not found in JSON." [p]] |}).
Proof.
  unfold decode_row, Postprocess_kv, GetJsonValue. unfold_monad. simpl.
  destruct (select T data i) as [out|e]; [|done].
  destruct (argmax T out) as [y|e]; [|done]. simpl.
  destruct (find F mapping_json_ (to_string (int y))) as [v|]; simpl.
  - by destruct (asString F v).
  - by intros [= <-].
Qed.

(** The loop body on any other row writes the row's response into the slot
    of the entry's request id. *)
Lemma Postprocess_kv_returns i rid st r0 :
  (forall p, decode i <> NoLabel p) ->
  Postprocess.response_batch st !! rid = Some r0 ->
  response_request_id r0 = rid ->
  exists resp lg,
    body (i, rid) st =
      (Returned tt,
       {| Postprocess.response_batch := <[rid := resp]> (Postprocess.response_batch st);
          Postprocess.log := lg |}) /\
    row_response PT rid (decode i) = Some resp /\
    response_request_id resp = rid.
Proof.
  intros Hlabel Hslot Hid. revert Hlabel.
  unfold decode_row, Postprocess_kv, GetJsonValue, SetResponse_at, SetResponse.
  unfold_monad. unfold write_log, Postprocess.postprocess_logging. simpl.
  destruct (select T data i) as [out|[w|m]]; simpl.
  - destruct (argmax T out) as [y|[w|m]]; simpl.
    + destruct (find F mapping_json_ (to_string (int y))) as [v|]; simpl.
      * destruct (asString F v) as [label|[w|m]]; simpl; rewrite Hslot, Hid;
          intros _; by eexists _, _.
      * intros Hlabel. by destruct (Hlabel (to_string (int y))).
    + rewrite Hslot, Hid. intros _. by eexists _, _.
    + rewrite Hslot, Hid. intros _. by eexists _, _.
  - rewrite Hslot, Hid. intros _. by eexists _, _.
  - rewrite Hslot, Hid. intros _. by eexists _, _.
Qed.

(** The loop over a list of entries none of which lacks a label, on a batch
    that has a response for each of them: it returns, and the response of an
    id is the one of the last entry that names it. *)
Lemma for_each_Postprocess_kv l : forall st,
  Forall (fun kv => forall p, decode kv.1 <> NoLabel p) l ->
  (forall kv, kv ∈ l ->
     exists r0, Postprocess.response_batch st !! kv.2 = Some r0 /\
                response_request_id r0 = kv.2) ->
  exists st',
    for_each body l st = (Returned tt, st') /\
    (forall rid, rid ∉ l.*2 ->
       Postprocess.response_batch st' !! rid = Postprocess.response_batch st !! rid) /\
    (forall l1 i rid l2, l = l1 ++ (i, rid) :: l2 -> rid ∉ l2.*2 ->
       Postprocess.response_batch st' !! rid = row_response PT rid (decode i)).
Proof.
  induction l as [|[i0 rid0] l IH]; intros st Hlabel Hslots.
  - exists st. split_and!; [done|done|]. intros [|? ?] ? ? ? ?; done.
  - apply Forall_cons in Hlabel. destruct Hlabel as [Hlabel0 Hlabel].
    destruct (Hslots (i0, rid0)) as (r0 & Hr0 & Hid0); [by left|].
    destruct (Postprocess_kv_returns i0 rid0 st r0 Hlabel0 Hr0 Hid0)
      as (resp & lg & Hbody & Hresp & Hrespid).
    simpl in Hr0, Hid0.
    set (st1 := {| Postprocess.response_batch :=
                     <[rid0 := resp]> (Postprocess.response_batch st);
                   Postprocess.log := lg |}) in *.
    destruct (IH st1 Hlabel) as (st' & Hrun & Hother & Hlast).
    { intros kv Hkv. simpl.
      destruct (decide (rid0 = kv.2)) as [<-|Hne].
      - exists resp. by rewrite lookup_insert_eq.
      - rewrite lookup_insert_ne by done. apply Hslots. by right. }
    exists st'. split_and!.
    + simpl. unfold bind. by rewrite Hbody.
    + intros rid Hrid. rewrite fmap_cons, not_elem_of_cons in Hrid.
      destruct Hrid as [Hne Hrid]. rewrite Hother by done. simpl.
      by rewrite lookup_insert_ne.
    + intros l1 i rid l2 Hl Hrid. destruct l1 as [|kv l1]; simpl in Hl.
      * injection Hl as -> -> ->. rewrite Hother by done. simpl.
        by rewrite lookup_insert_eq.
      * injection Hl as _ ->. by eapply Hlast.
Qed.

End PostprocessFacts.

(** ** The entries of a tracker *)

Lemma elem_of_entries_keys (m : gmap Z string) (keys : list Z) i rid :
  (i, rid) ∈ omap (fun i => (fun v => (i, v)) <$> m !! i) keys <->
  i ∈ keys /\ m !! i = Some rid.
Proof.
  rewrite list_elem_of_omap. split.
  - intros (j & Hj & Hm). destruct (m !! j) as [v|] eqn:E; simpl in Hm; [|done].
    by injection Hm as -> ->.
  - intros [Hi Hm]. exists i. by rewrite Hm.
Qed.

Lemma elem_of_entries (m : gmap Z string) i rid :
  (i, rid) ∈ entries m <-> 0 <= i < 256 /\ m !! i = Some rid.
Proof.
  unfold entries. rewrite elem_of_entries_keys, list_elem_of_fmap.
  split; intros [Hi Hm]; (split; [|done]).
  - destruct Hi as (k & -> & Hk). apply elem_of_seq in Hk. lia.
  - exists (Z.to_nat i). split; [lia|]. apply elem_of_seq. lia.
Qed.

Lemma NoDup_entries_keys (m : gmap Z string) (keys : list Z) :
  NoDup keys -> NoDup (omap (fun i => (fun v => (i, v)) <$> m !! i) keys).
Proof.
  induction 1 as [|i keys Hi Hnd IH]; simpl; [constructor|].
  destruct (m !! i) as [v|] eqn:E; simpl; [|done].
  constructor; [|done]. rewrite elem_of_entries_keys. tauto.
Qed.

Lemma NoDup_entries (m : gmap Z string) : NoDup (entries m).
Proof.
  apply NoDup_entries_keys. apply NoDup_fmap_2; [|apply NoDup_seq].
  intros ? ?. lia.
Qed.

(** In a tracker that holds an id under one key only, the entry of that id
    splits the traversal, and the id does not occur after it. *)
Lemma entries_split (m : gmap Z string) i rid :
  (forall j, m !! j = Some rid -> j = i) ->
  0 <= i < 256 ->
  m !! i = Some rid ->
  exists l1 l2, entries m = l1 ++ (i, rid) :: l2 /\ rid ∉ l2.*2.
Proof.
  intros Hinj Hi Hm.
  assert ((i, rid) ∈ entries m) as Hin by by apply elem_of_entries.
  apply list_elem_of_split in Hin. destruct Hin as (l1 & l2 & Hl).
  exists l1, l2. split; [done|]. intros Hrid.
  apply list_elem_of_fmap in Hrid. destruct Hrid as ([j rid'] & Heq & Hj).
  simpl in Heq. subst rid'.
  assert ((j, rid) ∈ entries m) as Hjm.
  { rewrite Hl. apply elem_of_app. right. by right. }
  apply elem_of_entries in Hjm. destruct Hjm as [_ Hjm].
  apply Hinj in Hjm. subst j.
  pose proof (NoDup_entries m) as Hnd. rewrite Hl in Hnd.
  apply NoDup_app in Hnd. destruct Hnd as (_ & _ & Hnd).
  apply NoDup_cons in Hnd. by destruct Hnd.
Qed.

(** ** Row-to-request correspondence *)

Lemma Preprocess_response_id PT tokenizer_ r :
  response_request_id (Preprocess_response PT tokenizer_ r) = request_id r.
Proof.
  unfold Preprocess_response.
  destruct (find_payload PT r) as [[d|] [h|]]; simpl; try done.
  by destruct (Encode tokenizer_ (VectorToStr d)) as [t|[w|m]].
Qed.

(** The [k]-th collected row is the row of the [k]-th encoded request. *)
Lemma encoded_request_row PT tokenizer_ max_length_ l : forall (k : nat) r,
  encoded_requests PT tokenizer_ l !! k = Some r ->
  exists t,
    encoded PT tokenizer_ r = Some t /\
    omap (fun r => row_tensor tokenizer_ max_length_ <$> encoded PT tokenizer_ r) l !! k =
      Some (row_tensor tokenizer_ max_length_ t).
Proof.
  induction l as [|a l IH]; intros k r Hk; [done|].
  rewrite encoded_requests_cons in Hk. simpl.
  destruct (encoded PT tokenizer_ a) as [t|] eqn:Ha; simpl.
  - destruct k as [|k]; simpl in *.
    + injection Hk as <-. by exists t.
    + by apply IH.
  - by apply IH.
Qed.

Lemma encoded_requests_subseteq PT tokenizer_ l r :
  r ∈ encoded_requests PT tokenizer_ l -> r ∈ l.
Proof. unfold encoded_requests. rewrite list_elem_of_filter. tauto. Qed.

(** The entries of the tracker and the responses. Take any batch whose
    encoded requests have pairwise distinct ids, and any engine output none
    of whose tracked rows predicts an index without a label. [Postprocess],
    run on the tracker and the responses that [Preprocess] left, returns, and
    for every entry [i |-> rid] of the tracker: [rid] is the id of an encoded
    request at a position [k] congruent to [i] modulo 256, whose tokens are
    the [k]-th collected row, with [k = i] when at most 256 requests were
    encoded, and the response of [rid] is the decoding of row [i] of the
    output. *)
Lemma row_to_request_correspondence (PT : PayloadType) (tokenizer_ : Tokenizer)
    (max_length_ : Z) (F : Folly) (T : Torch) (mapping_json_ : dynamic F)
    (rb : gmap string InferenceResponse) (batch : list InferenceRequest)
    (data : Tensor (Logits T)) :
  let pre := Preprocess.final
               (Preprocess PT tokenizer_ max_length_ (EmptyString, ∅) batch rb) in
  let ids := request_id <$> encoded_requests PT tokenizer_ batch in
  let st0 := {| Postprocess.response_batch := Preprocess.response_batch pre;
                Postprocess.log := Preprocess.log pre |} in
  NoDup ids ->
  Forall (fun kv => forall p, decode_row F T mapping_json_ data kv.1 <> NoLabel p)
         (entries (Preprocess.second pre)) ->
  exists st',
    Postprocess PT F T mapping_json_ data
      (Preprocess.first pre, Preprocess.second pre) st0 = (Returned tt, st') /\
    forall i rid,
      Preprocess.second pre !! i = Some rid ->
      (exists (k : nat) r t,
         encoded_requests PT tokenizer_ batch !! k = Some r /\
         request_id r = rid /\
         encoded PT tokenizer_ r = Some t /\
         Preprocess.tokens_ivalue pre !! k = Some (row_tensor tokenizer_ max_length_ t) /\
         uint8_t (Z.of_nat k) = i /\
         ((length ids <= 256)%nat -> Z.of_nat k = i)) /\
      Postprocess.response_batch st' !! rid =
        row_response PT rid (decode_row F T mapping_json_ data i).
Proof.
  intros pre ids st0 Hnd Hlabel.
  assert (Preprocess.second pre = record_rows 0 ids ∅) as Hsecond.
  { subst pre ids. unfold Preprocess. simpl. by rewrite loop_second. }
  assert (Preprocess.tokens_ivalue pre =
            omap (fun r => row_tensor tokenizer_ max_length_ <$> encoded PT tokenizer_ r)
                 batch) as Htokens.
  { subst pre. unfold Preprocess. simpl. by rewrite loop_tokens_ivalue. }
  destruct (for_each_Postprocess_kv PT F T mapping_json_ data
              (entries (Preprocess.second pre)) st0 Hlabel)
    as (st' & Hrun & _ & Hlast).
  { intros [i rid] Hkv. simpl. apply elem_of_entries in Hkv.
    destruct Hkv as [_ Hkv]. rewrite Hsecond in Hkv. apply tracker_value in Hkv.
    assert (rid ∈ request_id <$> batch) as Hrid.
    { subst ids. apply list_elem_of_fmap in Hkv. destruct Hkv as (r & -> & Hr).
      apply list_elem_of_fmap_2. by eapply encoded_requests_subseteq. }
    destruct (loop_response_batch_Some PT tokenizer_ max_length_ batch
                (Preprocess_entry (EmptyString, ∅) rb) rid Hrid)
      as (r & _ & Hid & Hresp).
    exists (Preprocess_response PT tokenizer_ r). split; [exact Hresp|].
    by rewrite Preprocess_response_id. }
  exists st'. split; [exact Hrun|].
  intros i rid Hi. split.
  - rewrite Hsecond in Hi. apply tracker_lookup in Hi.
    destruct Hi as (k & Hk & Hmod & _). subst ids.
    rewrite list_lookup_fmap in Hk.
    destruct (encoded_requests PT tokenizer_ batch !! k) as [r|] eqn:Hr; [|done].
    injection Hk as Hk.
    destruct (encoded_request_row PT tokenizer_ max_length_ batch k r Hr)
      as (t & Ht & Hrow).
    exists k, r, t. rewrite Htokens. split_and!; try done.
    intros Hlen. apply lookup_lt_Some in Hr. rewrite length_fmap in Hlen.
    rewrite <- Hmod. unfold uint8_t. rewrite Z.mod_small; lia.
  - destruct (entries_split (Preprocess.second pre) i rid) as (l1 & l2 & Hl & Hrid).
    + intros j Hj. rewrite Hsecond in Hi, Hj.
      by apply (tracker_injective ids j i rid).
    + rewrite Hsecond in Hi. by eapply tracker_key_range.
    + done.
    + by eapply Hlast.
Qed.

(** C1 (as amended). Take any batch in which at most 256 requests are
    encoded, with pairwise distinct ids, and any engine output none of whose
    tracked rows predicts an index without a label. [Postprocess], run on the
    tracker and the responses that [Preprocess] left, returns, and for every
    position [k]: the request whose tokens are the [k]-th collected row is
    the one the tracker holds under key [k], and its response is the decoding
    of row [k] of the output (status 200 with the label, or status 500 when
    the decoding of the row throws). *)
Theorem rows_decoded_against_their_requests (PT : PayloadType)
    (tokenizer_ : Tokenizer) (max_length_ : Z) (F : Folly) (T : Torch)
    (mapping_json_ : dynamic F) (rb : gmap string InferenceResponse)
    (batch : list InferenceRequest) (data : Tensor (Logits T)) :
  let pre := Preprocess.final
               (Preprocess PT tokenizer_ max_length_ (EmptyString, ∅) batch rb) in
  let ids := request_id <$> encoded_requests PT tokenizer_ batch in
  let st0 := {| Postprocess.response_batch := Preprocess.response_batch pre;
                Postprocess.log := Preprocess.log pre |} in
  (length ids <= 256)%nat ->
  NoDup ids ->
  Forall (fun kv => forall p, decode_row F T mapping_json_ data kv.1 <> NoLabel p)
         (entries (Preprocess.second pre)) ->
  exists st',
    Postprocess PT F T mapping_json_ data
      (Preprocess.first pre, Preprocess.second pre) st0 = (Returned tt, st') /\
    forall (k : nat) r,
      encoded_requests PT tokenizer_ batch !! k = Some r ->
      (exists t,
         encoded PT tokenizer_ r = Some t /\
         Preprocess.tokens_ivalue pre !! k =
           Some (row_tensor tokenizer_ max_length_ t)) /\
      Preprocess.second pre !! Z.of_nat k = Some (request_id r) /\
      Postprocess.response_batch st' !! request_id r =
        match decode_row F T mapping_json_ data (Z.of_nat k) with
        | Label label =>
            Some {| response_request_id := request_id r;
                    answer := Some {| code := 200; header_key := "data_type";
                                      header_val := kDATA_TYPE_STRING PT;
                                      msg := label |} |}
        | Failed (runtime_error _) =>
            Some {| response_request_id := request_id r;
                    answer := Some {| code := 500; header_key := "data_type";
                                      header_val := kDATA_TYPE_STRING PT;
                                      msg := "runtime_error, failed to postprocess tensor" |} |}
        | Failed (c10_Error _) =>
            Some {| response_request_id := request_id r;
                    answer := Some {| code := 500; header_key := "data_type";
                                      header_val := kDATA_TYPE_STRING PT;
                                      msg := "c10 error, failed to postprocess tensor" |} |}
        | NoLabel _ => None
        end.
Proof.
  intros pre ids st0 Hlen Hnd Hlabel.
  destruct (row_to_request_correspondence PT tokenizer_ max_length_ F T mapping_json_
              rb batch data Hnd Hlabel) as (st' & Hrun & Hall).
  exists st'. split; [exact Hrun|].
  intros k r Hk.
  assert (Preprocess.second pre !! Z.of_nat k = Some (request_id r)) as Hkey.
  { subst pre ids. unfold Preprocess. simpl. rewrite loop_second. simpl.
    rewrite tracker_dense by done. by rewrite list_lookup_fmap, Hk. }
  destruct (Hall (Z.of_nat k) (request_id r) Hkey) as [_ Hresp].
  split_and!.
  - destruct (encoded_request_row PT tokenizer_ max_length_ batch k r Hk)
      as (t & Ht & Hrow).
    exists t. split; [done|]. subst pre. unfold Preprocess. simpl.
    by rewrite loop_tokens_ivalue.
  - exact Hkey.
  - rewrite Hresp. unfold row_response.
    by destruct (decode_row F T mapping_json_ data (Z.of_nat k)) as [?|[?|?]|?].
Qed.

Lemma rows_decoded_against_their_requests_witness :
  let batch := [Demo.request "a" "hello"; Demo.request_without_payload "b";
                Demo.request "c" "hi"] in
  let data : Tensor (Logits Demo.torch) :=
    {| sizes := [2; 2]; blob := [[1; 5]; [7; 2]] |} in
  let pre := Preprocess.final
               (Preprocess Demo.payload_type Demo.tokenizer 8 (EmptyString, ∅) batch ∅) in
  (length (request_id <$> encoded_requests Demo.payload_type Demo.tokenizer batch)
     <= 256)%nat /\
  NoDup (request_id <$> encoded_requests Demo.payload_type Demo.tokenizer batch) /\
  Forall (fun kv => forall p,
            decode_row (Demo.folly Demo.complete_config) Demo.torch Demo.mapping
              data kv.1 <> NoLabel p)
         (entries (Preprocess.second pre)) /\
  exists st',
    Postprocess Demo.payload_type (Demo.folly Demo.complete_config) Demo.torch
      Demo.mapping data (Preprocess.first pre, Preprocess.second pre)
      {| Postprocess.response_batch := Preprocess.response_batch pre;
         Postprocess.log := Preprocess.log pre |} = (Returned tt, st') /\
    Preprocess.second pre !! 1 = Some "c" /\
    Postprocess.response_batch st' !! "a" =
      Some {| response_request_id := "a";
              answer := Some {| code := 200; header_key := "data_type";
                                header_val := "string"; msg := "positive" |} |} /\
    Postprocess.response_batch st' !! "c" =
      Some {| response_request_id := "c";
              answer := Some {| code := 200; header_key := "data_type";
                                header_val := "string"; msg := "negative" |} |}.
Proof.
  intros batch data pre.
  assert (length (request_id <$>
                    encoded_requests Demo.payload_type Demo.tokenizer batch)
            <= 256)%nat as Hlen by (vm_compute; lia).
  assert (NoDup (request_id <$> encoded_requests Demo.payload_type Demo.tokenizer batch))
    as Hnd.
  { refine (bool_decide_unpack _ _). vm_compute. exact I. }
  assert (Forall (fun kv => forall p,
            decode_row (Demo.folly Demo.complete_config) Demo.torch Demo.mapping
              data kv.1 <> NoLabel p)
         (entries (Preprocess.second pre))) as Hlabel.
  { assert (entries (Preprocess.second pre) = [(0, "a"); (1, "c")]) as ->
      by (vm_compute; reflexivity).
    repeat constructor; intros p; vm_compute; discriminate. }
  split; [exact Hlen|]. split; [exact Hnd|]. split; [exact Hlabel|].
  destruct (rows_decoded_against_their_requests Demo.payload_type Demo.tokenizer 8
              (Demo.folly Demo.complete_config) Demo.torch Demo.mapping ∅ batch data
              Hlen Hnd Hlabel) as (st' & Hrun & Hall).
  exists st'. split; [exact Hrun|].
  destruct (Hall 0%nat (Demo.request "a" "hello") eq_refl) as (_ & _ & Ha).
  destruct (Hall 1%nat (Demo.request "c" "hi") eq_refl) as (_ & Hkey & Hc).
  split; [exact Hkey|]. split; [exact Ha|exact Hc].
Defined.

(** C1 (as stated) fails: with 257 encoded requests of distinct ids, whose
    predicted indices all have labels, the request whose tokens are row 0 is
    "0", but key 0 of the tracker holds "256", the last request:
    [Postprocess] gives "256" the decoding of row 0 of the output (not that of
    row 256, which differs), and "0" is never answered. *)
Lemma row_correspondence_counterexample :
  let batch := Demo.numbered_requests 0 257 in
  let data : Tensor (Logits Demo.torch) :=
    {| sizes := [257; 2]; blob := [1; 5] :: replicate 256 [7; 2] |} in
  let pre := Preprocess.final
               (Preprocess Demo.payload_type Demo.tokenizer 8 (EmptyString, ∅) batch ∅) in
  let post := Postprocess Demo.payload_type (Demo.folly Demo.complete_config)
                Demo.torch Demo.mapping data
                (Preprocess.first pre, Preprocess.second pre)
                {| Postprocess.response_batch := Preprocess.response_batch pre;
                   Postprocess.log := Preprocess.log pre |} in
  NoDup (request_id <$> batch) /\
  encoded_requests Demo.payload_type Demo.tokenizer batch !! 0%nat =
    Some (Demo.request "0" "hi") /\
  Preprocess.tokens_ivalue pre !! 0%nat = Some (row_tensor Demo.tokenizer 8 [104; 105]) /\
  Preprocess.second pre !! 0 = Some "256" /\
  decode_row (Demo.folly Demo.complete_config) Demo.torch Demo.mapping data 0 =
    Label "positive" /\
  decode_row (Demo.folly Demo.complete_config) Demo.torch Demo.mapping data 256 =
    Label "negative" /\
  post.1 = Returned tt /\
  Postprocess.response_batch post.2 !! "256" =
    Some {| response_request_id := "256";
            answer := Some {| code := 200; header_key := "data_type";
                              header_val := "string"; msg := "positive" |} |} /\
  Postprocess.response_batch post.2 !! "0" = Some (make_InferenceResponse "0").
Proof.
  split; [refine (bool_decide_unpack _ _); vm_compute; exact I|].
  by vm_compute.
Qed.

(** ** Labels that are missing *)

(** C5 fails on the code. A tracked row whose predicted index has no label
    makes [GetJsonValue] execute [throw;] while no exception is being
    handled: the process is terminated, the handlers of [Postprocess] do not
    run, the request keeps its placeholder response, and the rows after it
    are not decoded. Here row 0 predicts index 2, for which the mapping has
    no label. *)
Example missing_label_terminates :
  let batch := [Demo.request "a" "hello"; Demo.request "c" "hi"] in
  let data : Tensor (Logits Demo.torch) :=
    {| sizes := [2; 3]; blob := [[1; 5; 9]; [7; 2; 0]] |} in
  let pre := Preprocess.final
               (Preprocess Demo.payload_type Demo.tokenizer 8 (EmptyString, ∅) batch ∅) in
  Preprocess.second pre = {[0 := "a"; 1 := "c"]} /\
  decode_row (Demo.folly Demo.complete_config) Demo.torch Demo.mapping data 0 =
    NoLabel "2" /\
  Postprocess Demo.payload_type (Demo.folly Demo.complete_config) Demo.torch
    Demo.mapping data (Preprocess.first pre, Preprocess.second pre)
    {| Postprocess.response_batch := Preprocess.response_batch pre;
       Postprocess.log := Preprocess.log pre |} =
  (Crashed std_terminate,
   {| Postprocess.response_batch :=
        {["a" := make_InferenceResponse "a"; "c" := make_InferenceResponse "c"]};
      Postprocess.log := [ERROR "Required field {} not found in JSON." ["2"]] |}).
Proof. by vm_compute. Qed.

(** ** Rows of over-length sequences, and the declared number of rows *)

Section ShapeFacts.

Variable PT : PayloadType.
Variable tokenizer_ : Tokenizer.
Variable max_length_ : Z.

(** A request whose sequence is longer than [max_length_] is logged and then
    treated like any other encoded request: its first [max_length_] token
    ids become a row, the tracker records it, and its response stays the
    placeholder. *)
Lemma over_length_gets_row st r t :
  encoded PT tokenizer_ r = Some t ->
  max_length_ < int (Z.of_nat (length t)) ->
  let st' := Preprocess_request PT tokenizer_ max_length_ st r in
  Preprocess.tokens_ivalue st' =
    Preprocess.tokens_ivalue st ++
    [{| sizes := [max_length_]; blob := take (Z.to_nat max_length_) t |}] /\
  Preprocess.second st' = <[Preprocess.idx st := request_id r]> (Preprocess.second st) /\
  Preprocess.response_batch st' !! request_id r =
    Some (make_InferenceResponse (request_id r)).
Proof.
  intros Ht Hlen st'. subst st'.
  rewrite step_tokens_ivalue, step_second, step_response_batch, Ht.
  rewrite row_tensor_long by lia. rewrite lookup_insert_eq.
  split_and!; try done. f_equal. unfold Preprocess_response.
  unfold encoded in Ht.
  destruct (find_payload PT r) as [[d|] [h|]]; try done.
  by destruct (Encode tokenizer_ (VectorToStr d)).
Qed.

(** The tensor returned is declared with one row per request of the batch,
    over one collected row per encoded request. *)
Lemma Preprocess_declared_rows idx_to_req_id batch rb :
  let res := Preprocess PT tokenizer_ max_length_ idx_to_req_id batch rb in
  rows (Preprocess.tokens res) = Z.of_nat (length batch) /\
  rows (Preprocess.attention_mask res) = Z.of_nat (length batch) /\
  length (blob (Preprocess.tokens res)) =
    length (encoded_requests PT tokenizer_ batch).
Proof.
  simpl. split_and!; try done.
  rewrite loop_tokens_ivalue. simpl. apply omap_encoded_length.
Qed.

End ShapeFacts.

(** A request on whose payload the tokenizer throws is answered with status
    500 and gets no row; the requests around it are encoded as usual. *)
Example tokenizer_failure_isolated :
  let res := Preprocess Demo.payload_type Demo.tokenizer 4 (EmptyString, ∅)
               [Demo.request "a" "hi"; Demo.request "b" ""; Demo.request "c" "yo"] ∅ in
  Preprocess.tokens_ivalue (Preprocess.final res) =
    [{| sizes := [4]; blob := [104; 105; 0; 0] |};
     {| sizes := [4]; blob := [121; 111; 0; 0] |}] /\
  Preprocess.second (Preprocess.final res) = {[0 := "a"; 1 := "c"]} /\
  Preprocess.response_batch (Preprocess.final res) !! "b" =
    Some {| response_request_id := "b";
            answer := Some {| code := 500; header_key := "data_type";
                              header_val := "string";
                              msg := "runtime_error, failed to load tensor" |} |} /\
  Preprocess.first (Preprocess.final res) = "a,b,c".
Proof. by vm_compute. Qed.

(** C2 fails on the code. A request whose tokenized sequence is longer than
    [max_length_] is logged but not rejected: its first [max_length_] token
    ids become row 0, the tracker records the request, and its response is
    left as the placeholder. Here "hello" has 5 tokens and [max_length_] is
    3. *)
Example over_length_not_rejected :
  let res := Preprocess Demo.payload_type Demo.tokenizer 3 (EmptyString, ∅)
               [Demo.request "a" "hello"] ∅ in
  Encode Demo.tokenizer "hello" = inl [104; 101; 108; 108; 111] /\
  Preprocess.tokens_ivalue (Preprocess.final res) =
    [{| sizes := [3]; blob := [104; 101; 108] |}] /\
  Preprocess.second (Preprocess.final res) = {[0 := "a"]} /\
  Preprocess.response_batch (Preprocess.final res) !! "a" =
    Some (make_InferenceResponse "a") /\
  Preprocess.log (Preprocess.final res) =
    [ERROR "prompt too long ({} tokens, max {})" ["5"; "3"]].
Proof. by vm_compute. Qed.

(** C3 fails on the code. The returned tensor is declared with as many rows
    as the batch has requests, whatever number of them was encoded. Here the
    only request has no payload: the tensor is declared 1 by 8 over no
    collected row, and the tracker is empty. *)
Example declared_rows_exceed_tracker :
  let res := Preprocess Demo.payload_type Demo.tokenizer 8 (EmptyString, ∅)
               [Demo.request_without_payload "b"] ∅ in
  rows (Preprocess.tokens res) = 1 /\
  sizes (Preprocess.tokens res) = [1; 8] /\
  blob (Preprocess.tokens res) = [] /\
  size (Preprocess.second (Preprocess.final res)) = 0%nat /\
  Preprocess.second (Preprocess.final res) = ∅.
Proof. by vm_compute. Qed.

(** ** Loading *)

Section LoaderFacts.

Variable F : Folly.
Variable I : Inductor.
Variable load_model_request : LoadModelRequest.
Variable content : string.
Variable config : dynamic F.

Hypothesis config_read :
  readFile F (format_path (model_dir load_model_request) "config.json") = Some content.
Hypothesis config_parsed : parseJson F content = inl config.


End LoaderFacts.




(** Loading a model directory whose config lacks "tokenizer_path": the
    process is terminated at the lookup, after the missing field was
    logged. *)
Example load_without_tokenizer_path :
  let result := LoadModel (Demo.folly Demo.config_without_tokenizer_path) Demo.inductor
                  Demo.load_model_request
                  (Demo.unloaded Demo.config_without_tokenizer_path) in
  result.1 = Crashed std_terminate /\
  LoadModel.log result.2 =
    [ERROR "Required field {} not found in JSON." ["tokenizer_path"]].
Proof. by vm_compute. Qed.

(** Loading a complete model directory returns the engine handle and leaves
    every field of the handler assigned. *)
Example load_complete_config :
  LoadModel (Demo.folly Demo.complete_config) Demo.inductor Demo.load_model_request
    (Demo.unloaded Demo.complete_config) =
  (Returned ("model/model.so", {| is_cuda := false; str := "cpu" |}),
   @LoadModel.mkState (Demo.folly Demo.complete_config)
     (Some Demo.mapping) (Some Demo.complete_config) 8 (Some Demo.tokenizer) []).
Proof. by vm_compute. Qed.

(** * Further properties of the handler *)

(** ** The length check and the rows *)

(** X1. The length check never removes a token id. For a sequence whose
    length fits a 32-bit [int], the vector after the check is the sequence
    followed by as many pad ids as it lacks to reach [max_length_] (none when
    it is as long or longer), and "prompt too long" is logged, with both
    lengths, exactly when the sequence is longer than [max_length_]. *)
Theorem length_check_pads_never_cuts (tokenizer_ : Tokenizer) (max_length_ : Z)
    (t : list Z) :
  Z.of_nat (length t) < 2147483648 ->
  fst (pad_token_ids tokenizer_ max_length_ t) =
    t ++ replicate (Z.to_nat max_length_ - length t) (TokenToId tokenizer_ "<pad>") /\
  snd (pad_token_ids tokenizer_ max_length_ t) =
    if Z.of_nat (length t) >? max_length_
    then [ERROR "prompt too long ({} tokens, max {})"
                [to_string (Z.of_nat (length t)); to_string max_length_]]
    else [].
Proof.
  intros Hlen. unfold pad_token_ids. rewrite int_id by lia.
  destruct (Z.gtb_spec (Z.of_nat (length t)) max_length_) as [Hgt|Hle]; simpl.
  - split; [|done].
    replace (Z.to_nat max_length_ - length t)%nat with 0%nat by lia.
    by rewrite app_nil_r.
  - destruct (Z.ltb_spec (Z.of_nat (length t)) max_length_) as [Hlt|Hge]; simpl.
    + split; [|done]. do 2 f_equal. lia.
    + split; [|done].
      replace (Z.to_nat max_length_ - length t)%nat with 0%nat by lia.
      by rewrite app_nil_r.
Qed.

Lemma length_check_pads_never_cuts_witness :
  Z.of_nat (length [104; 105]) < 2147483648 /\
  fst (pad_token_ids Demo.tokenizer 4 [104; 105]) = [104; 105; 0; 0] /\
  snd (pad_token_ids Demo.tokenizer 4 [104; 105]) = [].
Proof.
  assert (Z.of_nat (length [104; 105]) < 2147483648) as Hlen by (simpl; lia).
  split; [exact Hlen|].
  exact (length_check_pads_never_cuts Demo.tokenizer 4 [104; 105] Hlen).
Defined.

(** X2. [Preprocess] collects one row tensor per encoded request, in
    arrival order: there are as many collected rows as encoded requests, and
    the [k]-th collected row is the tensor built from the token ids of the
    [k]-th encoded request, declared [max_length_] wide. *)
Theorem rows_follow_encoded_requests (PT : PayloadType) (tokenizer_ : Tokenizer)
    (max_length_ : Z) (idx_to_req_id : string * gmap Z string)
    (rb : gmap string InferenceResponse) (batch : list InferenceRequest) :
  let st := Preprocess.final
              (Preprocess PT tokenizer_ max_length_ idx_to_req_id batch rb) in
  length (Preprocess.tokens_ivalue st) =
    length (encoded_requests PT tokenizer_ batch) /\
  forall (k : nat) r,
    encoded_requests PT tokenizer_ batch !! k = Some r ->
    exists t,
      encoded PT tokenizer_ r = Some t /\
      Preprocess.tokens_ivalue st !! k = Some (row_tensor tokenizer_ max_length_ t) /\
      sizes (row_tensor tokenizer_ max_length_ t) = [max_length_].
Proof.
  intros st. subst st. unfold Preprocess. simpl. rewrite loop_tokens_ivalue. simpl.
  split; [apply omap_encoded_length|].
  intros k r Hk.
  destruct (encoded_request_row PT tokenizer_ max_length_ batch k r Hk)
    as (t & Ht & Hrow).
  by exists t.
Qed.

Lemma rows_follow_encoded_requests_witness :
  let batch := [Demo.request_without_payload "x"; Demo.request "b" "hello!"] in
  encoded_requests Demo.payload_type Demo.tokenizer batch !! 0%nat =
    Some (Demo.request "b" "hello!") /\
  exists t,
    encoded Demo.payload_type Demo.tokenizer (Demo.request "b" "hello!") = Some t /\
    Preprocess.tokens_ivalue
      (Preprocess.final
         (Preprocess Demo.payload_type Demo.tokenizer 4 (EmptyString, ∅) batch ∅))
      !! 0%nat = Some (row_tensor Demo.tokenizer 4 t) /\
    sizes (row_tensor Demo.tokenizer 4 t) = [4].
Proof.
  intros batch. split; [reflexivity|].
  destruct (rows_follow_encoded_requests Demo.payload_type Demo.tokenizer 4
              (EmptyString, ∅) ∅ batch) as [_ Hrows].
  exact (Hrows 0%nat (Demo.request "b" "hello!") eq_refl).
Defined.

(** ** The payload of a request *)



(** ** Requests on which the tokenizer fails *)

(** X4. A request that passes the payload check but on whose text the
    tokenizer throws is answered with status 500 and the message of the
    handler that caught the exception, the failure is logged with the
    request id and the text of the exception, and the request gets no row:
    tracker, cursor and collected rows are left as they were, and rows and
    tracker of the whole batch are those of the batch without the request.
    The 500 response is the final one unless a later request reuses the id. *)
Theorem tokenizer_failure_excluded (PT : PayloadType) (tokenizer_ : Tokenizer)
    (max_length_ : Z) (idx_to_req_id : string * gmap Z string)
    (rb : gmap string InferenceResponse)
    (batch1 : list InferenceRequest) (r : InferenceRequest)
    (batch2 : list InferenceRequest) (data : list ascii) (dtype : string)
    (e : exception) :
  find_payload PT r = (Some data, Some dtype) ->
  Encode tokenizer_ (VectorToStr data) = inr e ->
  let step := Preprocess_request PT tokenizer_ max_length_ in
  let before :=
    Preprocess_loop PT tokenizer_ max_length_ (Preprocess_entry idx_to_req_id rb) batch1 in
  let st := Preprocess.final (Preprocess PT tokenizer_ max_length_ idx_to_req_id
                                (batch1 ++ r :: batch2) rb) in
  let without := Preprocess.final (Preprocess PT tokenizer_ max_length_ idx_to_req_id
                                     (batch1 ++ batch2) rb) in
  let failure :=
    {| response_request_id := request_id r;
       answer :=
         Some {| code := 500; header_key := "data_type";
                 header_val := kDATA_TYPE_STRING PT;
                 msg := match e with
                        | runtime_error _ => "runtime_error, failed to load tensor"
                        | c10_Error _ => "c10 error, failed to load tensor"
                        end |} |} in
  (Preprocess.response_batch (step before r) !! request_id r = Some failure /\
   Preprocess.log (step before r) =
     Preprocess.log before ++
     [match e with
      | runtime_error what =>
          ERROR "Failed to load tensor for request id: {}, error: {}"
                [request_id r; what]
      | c10_Error m =>
          ERROR "Failed to load tensor for request id: {}, c10 error: {}"
                [request_id r; m]
      end]) /\
  (Preprocess.second (step before r) = Preprocess.second before /\
   Preprocess.idx (step before r) = Preprocess.idx before /\
   Preprocess.tokens_ivalue (step before r) = Preprocess.tokens_ivalue before) /\
  (Preprocess.tokens_ivalue st = Preprocess.tokens_ivalue without /\
   Preprocess.second st = Preprocess.second without /\
   Preprocess.idx st = Preprocess.idx without) /\
  (request_id r ∉ request_id <$> batch2 ->
   Preprocess.response_batch st !! request_id r = Some failure).
Proof.
  intros Hfind Hthrow step before st without failure.
  assert (encoded PT tokenizer_ r = None) as Henc.
  { unfold encoded. by rewrite Hfind, Hthrow. }
  assert (Preprocess_response PT tokenizer_ r = failure) as Hresp.
  { unfold Preprocess_response, failure. rewrite Hfind, Hthrow. by destruct e. }
  subst step st without. unfold Preprocess. simpl. split_and!.
  - by rewrite step_response_batch, lookup_insert_eq, Hresp.
  - unfold Preprocess_request. rewrite Hfind, Hthrow. by destruct e.
  - by rewrite step_second, Henc.
  - by rewrite step_idx, Henc.
  - by rewrite step_tokens_ivalue, Henc, app_nil_r.
  - by apply loop_skip.
  - by apply loop_skip.
  - by apply loop_skip.
  - intros Hlater. by rewrite loop_response_batch, Hresp.
Qed.

Lemma tokenizer_failure_excluded_witness :
  find_payload Demo.payload_type (Demo.request "b" EmptyString) =
    (Some [], Some "string") /\
  Encode Demo.tokenizer (VectorToStr []) = inr (runtime_error "empty input") /\
  let st := Preprocess.final
              (Preprocess Demo.payload_type Demo.tokenizer 4 (EmptyString, ∅)
                 ([Demo.request "a" "hi"] ++
                  Demo.request "b" EmptyString :: [Demo.request "c" "yo"]) ∅) in
  Preprocess.second st =
    Preprocess.second
      (Preprocess.final
         (Preprocess Demo.payload_type Demo.tokenizer 4 (EmptyString, ∅)
            ([Demo.request "a" "hi"] ++ [Demo.request "c" "yo"]) ∅)) /\
  Preprocess.response_batch st !! "b" =
    Some {| response_request_id := "b";
            answer := Some {| code := 500; header_key := "data_type";
                              header_val := "string";
                              msg := "runtime_error, failed to load tensor" |} |}.
Proof.
  split; [reflexivity|]. split; [reflexivity|].
  destruct (tokenizer_failure_excluded Demo.payload_type Demo.tokenizer 4
              (EmptyString, ∅) ∅ [Demo.request "a" "hi"]
              (Demo.request "b" EmptyString) [Demo.request "c" "yo"]
              [] "string" (runtime_error "empty input") eq_refl eq_refl)
    as (_ & _ & (_ & Hsecond & _) & Hfinal).
  split; [exact Hsecond|].
  apply Hfinal. simpl. intros Hin. apply list_elem_of_singleton in Hin. discriminate.
Defined.

(** ** The responses Preprocess leaves *)

Lemma Preprocess_response_answer PT tokenizer_ r :
  (answer (Preprocess_response PT tokenizer_ r) = None <->
   is_Some (encoded PT tokenizer_ r)) /\
  (forall a, answer (Preprocess_response PT tokenizer_ r) = Some a -> code a = 500).
Proof.
  unfold Preprocess_response, encoded.
  destruct (find_payload PT r) as [[d|] [h|]]; simpl;
    try (split; [split; [done|by intros [? ?]]|by intros a [= <-]]).
  destruct (Encode tokenizer_ (VectorToStr d)) as [t|[w|m]]; simpl.
  - split; [split; [by eexists|done]|done].
  - split; [split; [done|by intros [? ?]]|by intros a [= <-]].
  - split; [split; [done|by intros [? ?]]|by intros a [= <-]].
Qed.

(** In a batch of distinct ids, the response of each request is the one the
    loop body wrote for it. *)
Lemma Preprocess_response_of_request PT tokenizer_ max_length_ st batch r :
  NoDup (request_id <$> batch) ->
  r ∈ batch ->
  Preprocess.response_batch (Preprocess_loop PT tokenizer_ max_length_ st batch)
    !! request_id r = Some (Preprocess_response PT tokenizer_ r).
Proof.
  intros Hnd Hr. apply list_elem_of_split in Hr. destruct Hr as (l1 & l2 & ->).
  apply loop_response_batch.
  rewrite fmap_app, fmap_cons in Hnd. apply NoDup_app in Hnd.
  destruct Hnd as (_ & _ & Hnd). apply NoDup_cons in Hnd. by destruct Hnd.
Qed.

(** X5. After [Preprocess] of a batch with pairwise distinct ids, every
    request of the batch has a response under its id: the placeholder (no
    status yet) exactly when the request was encoded, and a status 500
    otherwise. The responses of ids that are not in the batch are the ones
    the caller passed. *)
Theorem responses_after_preprocess (PT : PayloadType) (tokenizer_ : Tokenizer)
    (max_length_ : Z) (idx_to_req_id : string * gmap Z string)
    (rb : gmap string InferenceResponse) (batch : list InferenceRequest) :
  NoDup (request_id <$> batch) ->
  let st := Preprocess.final
              (Preprocess PT tokenizer_ max_length_ idx_to_req_id batch rb) in
  (forall r, r ∈ batch ->
     exists resp,
       Preprocess.response_batch st !! request_id r = Some resp /\
       response_request_id resp = request_id r /\
       (answer resp = None <-> is_Some (encoded PT tokenizer_ r)) /\
       (forall a, answer resp = Some a -> code a = 500)) /\
  (forall rid, rid ∉ request_id <$> batch ->
     Preprocess.response_batch st !! rid = rb !! rid).
Proof.
  intros Hnd st. subst st. unfold Preprocess. simpl. split.
  - intros r Hr. exists (Preprocess_response PT tokenizer_ r).
    split; [by apply Preprocess_response_of_request|].
    split; [apply Preprocess_response_id|]. apply Preprocess_response_answer.
  - intros rid Hrid. by rewrite loop_response_batch_other.
Qed.

Lemma responses_after_preprocess_witness :
  NoDup (request_id <$> [Demo.request "a" "hi"; Demo.request_without_payload "b"]) /\
  forall rid,
    rid ∉ request_id <$> [Demo.request "a" "hi"; Demo.request_without_payload "b"] ->
    Preprocess.response_batch
      (Preprocess.final
         (Preprocess Demo.payload_type Demo.tokenizer 4 (EmptyString, ∅)
            [Demo.request "a" "hi"; Demo.request_without_payload "b"]
            {["z" := make_InferenceResponse "z"]})) !! rid =
    ({["z" := make_InferenceResponse "z"]} : gmap string InferenceResponse) !! rid.
Proof.
  assert (NoDup (request_id <$>
                   [Demo.request "a" "hi"; Demo.request_without_payload "b"])) as Hnd.
  { refine (bool_decide_unpack _ _). vm_compute. exact I. }
  split; [exact Hnd|].
  apply (responses_after_preprocess Demo.payload_type Demo.tokenizer 4
           (EmptyString, ∅) {["z" := make_InferenceResponse "z"]}
           [Demo.request "a" "hi"; Demo.request_without_payload "b"] Hnd).
Defined.

(** X6. After [Preprocess] of a batch with pairwise distinct ids, started
    with an empty tracker, every id the tracker holds has a response, and it
    is the placeholder that no stage has written yet: what [Postprocess]
    dereferences exists and carries no error. *)
Theorem tracked_requests_are_pending (PT : PayloadType) (tokenizer_ : Tokenizer)
    (max_length_ : Z) (first0 : string)
    (rb : gmap string InferenceResponse) (batch : list InferenceRequest) :
  NoDup (request_id <$> batch) ->
  let st := Preprocess.final
              (Preprocess PT tokenizer_ max_length_ (first0, ∅) batch rb) in
  forall i rid,
    Preprocess.second st !! i = Some rid ->
    Preprocess.response_batch st !! rid = Some (make_InferenceResponse rid).
Proof.
  intros Hnd st i rid. subst st. unfold Preprocess. simpl.
  rewrite loop_second. simpl. intros Hi. apply tracker_value in Hi.
  apply list_elem_of_fmap in Hi. destruct Hi as (r & -> & Hr).
  pose proof (encoded_requests_encoded PT tokenizer_ r batch Hr) as [t Ht].
  apply encoded_requests_subseteq in Hr.
  rewrite (Preprocess_response_of_request PT tokenizer_ max_length_ _ batch r Hnd Hr).
  f_equal. unfold Preprocess_response. unfold encoded in Ht.
  destruct (find_payload PT r) as [[d|] [h|]]; try done.
  by destruct (Encode tokenizer_ (VectorToStr d)).
Qed.

Lemma tracked_requests_are_pending_witness :
  NoDup (request_id <$> [Demo.request "a" "hi"; Demo.request_without_payload "b"]) /\
  let st := Preprocess.final
              (Preprocess Demo.payload_type Demo.tokenizer 4 (EmptyString, ∅)
                 [Demo.request "a" "hi"; Demo.request_without_payload "b"] ∅) in
  Preprocess.second st !! 0 = Some "a" /\
  Preprocess.response_batch st !! "a" = Some (make_InferenceResponse "a").
Proof.
  assert (NoDup (request_id <$>
                   [Demo.request "a" "hi"; Demo.request_without_payload "b"])) as Hnd.
  { refine (bool_decide_unpack _ _). vm_compute. exact I. }
  split; [exact Hnd|]. split; [reflexivity|].
  apply (tracked_requests_are_pending Demo.payload_type Demo.tokenizer 4 EmptyString ∅
           [Demo.request "a" "hi"; Demo.request_without_payload "b"] Hnd 0 "a").
  reflexivity.
Defined.

(** ** The tracker of a batch of at most 256 encoded requests *)

Lemma tracker_size ids :
  size (record_rows 0 ids ∅) = (length ids `min` 256)%nat.
Proof.
  induction ids as [|x ids IH] using rev_ind; [done|].
  rewrite record_rows_snoc by lia. rewrite Z.add_0_l, length_app. simpl length.
  destruct (decide (length ids < 256)%nat) as [Hlt|Hge].
  - rewrite map_size_insert_None; [rewrite IH; lia|].
    destruct (record_rows 0 ids ∅ !! uint8_t (Z.of_nat (length ids))) as [rid|] eqn:E;
      [|done].
    apply tracker_lookup in E. destruct E as (k & Hk & Hmod & _).
    apply lookup_lt_Some in Hk. unfold uint8_t in Hmod.
    rewrite !Z.mod_small in Hmod; lia.
  - rewrite map_size_insert_Some; [rewrite IH; lia|].
    pose proof (tracker_occupied ids (length ids - 256)) as Hocc.
    replace (uint8_t (Z.of_nat (length ids - 256)))
      with (uint8_t (Z.of_nat (length ids))) in Hocc; [apply Hocc; lia|].
    unfold uint8_t.
    replace (Z.of_nat (length ids)) with (Z.of_nat (length ids - 256) + 1 * 256) by lia.
    by rewrite Z_mod_plus_full.
Qed.

(** X7. Started with an empty tracker, [Preprocess] leaves a tracker with
    as many entries as requests were encoded, but never more than 256. When
    at most 256 requests were encoded the tracker is the dense map of row
    positions to ids: key [k] holds the id of the [k]-th encoded request, and
    no other key is used. *)
Theorem tracker_is_dense_up_to_256 (PT : PayloadType) (tokenizer_ : Tokenizer)
    (max_length_ : Z) (first0 : string)
    (rb : gmap string InferenceResponse) (batch : list InferenceRequest) :
  let st := Preprocess.final
              (Preprocess PT tokenizer_ max_length_ (first0, ∅) batch rb) in
  let ids := request_id <$> encoded_requests PT tokenizer_ batch in
  size (Preprocess.second st) = (length ids `min` 256)%nat /\
  ((length ids <= 256)%nat ->
   (forall k : nat, Preprocess.second st !! Z.of_nat k = ids !! k) /\
   (forall j rid, Preprocess.second st !! j = Some rid ->
      0 <= j < Z.of_nat (length ids))).
Proof.
  intros st ids. subst st ids. unfold Preprocess. simpl.
  rewrite loop_second. simpl. split; [apply tracker_size|].
  intros Hlen. split.
  - intros k. by apply tracker_dense.
  - intros j rid Hj. apply tracker_lookup in Hj.
    destruct Hj as (k & Hk & <- & _). apply lookup_lt_Some in Hk.
    unfold uint8_t. rewrite Z.mod_small; lia.
Qed.

Lemma tracker_is_dense_up_to_256_witness :
  let batch := [Demo.request "a" "hi"; Demo.request_without_payload "b";
                Demo.request "c" "yo"] in
  let st := Preprocess.final
              (Preprocess Demo.payload_type Demo.tokenizer 4 (EmptyString, ∅) batch ∅) in
  (length (request_id <$> encoded_requests Demo.payload_type Demo.tokenizer batch)
     <= 256)%nat /\
  Preprocess.second st !! Z.of_nat 1 = Some "c".
Proof.
  intros batch st.
  assert (length (request_id <$>
                    encoded_requests Demo.payload_type Demo.tokenizer batch)
            <= 256)%nat as Hlen by (vm_compute; lia).
  split; [exact Hlen|].
  destruct (tracker_is_dense_up_to_256 Demo.payload_type Demo.tokenizer 4
              EmptyString ∅ batch) as [_ Hdense].
  destruct (Hdense Hlen) as [Hk _]. exact (Hk 1%nat).
Defined.

(** ** The attention mask *)

Lemma length_filter_eq {A} (P : A -> Prop) `{forall x, Decision (P x)} (l : list A) :
  length (filter P l) = length l <-> Forall P l.
Proof.
  induction l as [|x l IH]; [by split|].
  rewrite filter_cons. pose proof (length_filter P l) as Hle.
  destruct (decide (P x)) as [Hx|Hx]; simpl.
  - rewrite Forall_cons. split.
    + intros Hlen. split; [done|]. apply IH. lia.
    + intros [_ Hl]. f_equal. by apply IH.
  - split; [lia|]. intros Hl. apply Forall_cons in Hl. by destruct Hl.
Qed.

(** X8. The attention mask is an all-ones tensor declared with one row per
    request of the batch, fixed before any request is looked at, while one
    row of token ids is collected per encoded request: the mask never has
    fewer rows than were collected, and it has as many exactly when every
    request of the batch was encoded. *)
Theorem mask_rows_and_token_rows (PT : PayloadType) (tokenizer_ : Tokenizer)
    (max_length_ : Z) (idx_to_req_id : string * gmap Z string)
    (rb : gmap string InferenceResponse) (batch : list InferenceRequest) :
  let res := Preprocess PT tokenizer_ max_length_ idx_to_req_id batch rb in
  sizes (Preprocess.attention_mask res) = [Z.of_nat (length batch); max_length_] /\
  (forall x, x ∈ blob (Preprocess.attention_mask res) -> x = 1) /\
  Z.of_nat (length (blob (Preprocess.tokens res))) <= rows (Preprocess.attention_mask res) /\
  (Z.of_nat (length (blob (Preprocess.tokens res))) = rows (Preprocess.attention_mask res)
   <-> Forall (fun r => is_Some (encoded PT tokenizer_ r)) batch).
Proof.
  intros res. subst res. unfold Preprocess, rows. simpl.
  rewrite loop_tokens_ivalue. simpl. rewrite omap_encoded_length.
  unfold encoded_requests.
  pose proof (length_filter (fun r => is_Some (encoded PT tokenizer_ r)) batch) as Hle.
  split_and!.
  - done.
  - intros x Hx. by apply elem_of_replicate in Hx as [-> _].
  - lia.
  - rewrite <- (length_filter_eq (fun r => is_Some (encoded PT tokenizer_ r))).
    split; [intros Heq; by apply Nat2Z.inj|by intros ->].
Qed.

(** ** What Postprocess writes, and what it needs *)

Section PostprocessFrame.

Variable PT : PayloadType.
Variable F : Folly.
Variable T : Torch.
Variable mapping_json_ : dynamic F.
Variable data : Tensor (Logits T).

Local Abbreviation body := (Postprocess_kv PT F T mapping_json_ data).

(** The loop body touches no response but the one of its entry's id, and it
    returns only if that response exists. *)
Lemma Postprocess_kv_slots i rid st :
  (forall rid', rid' <> rid ->
     Postprocess.response_batch (body (i, rid) st).2 !! rid' =
     Postprocess.response_batch st !! rid') /\
  ((body (i, rid) st).1 = Returned tt ->
   is_Some (Postprocess.response_batch st !! rid)).
Proof.
  unfold Postprocess_kv, GetJsonValue, SetResponse_at. unfold_monad.
  unfold write_log, Postprocess.postprocess_logging. simpl.
  destruct (select T data i) as [out|[w|m]]; simpl;
    [destruct (argmax T out) as [y|[w|m]]; simpl;
     [destruct (find F mapping_json_ (to_string (int y))) as [v|]; simpl;
      [destruct (asString F v) as [label|[w|m]]; simpl|]|..]|..];
    destruct (Postprocess.response_batch st !! rid) as [r0|] eqn:Hslot; simpl;
    (split; [intros rid' Hne; by rewrite ?lookup_insert_ne|by intros; eauto]).
Qed.

Lemma for_each_frame l : forall st rid',
  rid' ∉ l.*2 ->
  Postprocess.response_batch (for_each body l st).2 !! rid' =
  Postprocess.response_batch st !! rid'.
Proof.
  induction l as [|[i rid] l IH]; intros st rid' Hrid; [done|].
  rewrite fmap_cons, not_elem_of_cons in Hrid. destruct Hrid as [Hne Hrid].
  destruct (Postprocess_kv_slots i rid st) as [Hframe _].
  specialize (Hframe rid' Hne). simpl. unfold bind.
  destruct (body (i, rid) st) as [[[]|e|c] st1]; simpl in *; try done.
  by rewrite IH.
Qed.

Lemma for_each_needs_slots l : forall st kv,
  kv ∈ l ->
  Postprocess.response_batch st !! kv.2 = None ->
  forall st', for_each body l st <> (Returned tt, st').
Proof.
  induction l as [|[i rid] l IH]; intros st kv Hkv Hnone st';
    [by apply elem_of_nil in Hkv|].
  destruct (Postprocess_kv_slots i rid st) as [Hframe Hslot].
  simpl. unfold bind.
  destruct (body (i, rid) st) as [[[]|e|c] st1]; simpl in *; try done.
  destruct (Hslot eq_refl) as [r0 Hr0].
  apply elem_of_cons in Hkv. destruct Hkv as [->|Hkv]; [simpl in Hnone; congruence|].
  apply (IH st1 kv Hkv).
  destruct (decide (kv.2 = rid)) as [Heq|Hne]; [congruence|].
  by rewrite Hframe.
Qed.

End PostprocessFrame.

Lemma untracked_not_in_entries (m : gmap Z string) rid :
  (forall i, m !! i <> Some rid) -> rid ∉ (entries m).*2.
Proof.
  intros Hm Hrid. apply list_elem_of_fmap in Hrid.
  destruct Hrid as ([j rid'] & Heq & Hj). simpl in Heq. subst rid'.
  apply elem_of_entries in Hj. destruct Hj as [_ Hj]. by apply (Hm j).
Qed.

(** X9. [Postprocess] writes only the responses of ids the tracker holds:
    the response of any other id is after the call what it was before,
    whether the loop returns or the process is ended on the way. *)
Theorem postprocess_writes_tracked_only (PT : PayloadType) (F : Folly) (T : Torch)
    (mapping_json_ : dynamic F) (data : Tensor (Logits T))
    (idx_to_req_id : string * gmap Z string) (st : Postprocess.state)
    (rid : string) :
  (forall i, snd idx_to_req_id !! i <> Some rid) ->
  Postprocess.response_batch
    (Postprocess PT F T mapping_json_ data idx_to_req_id st).2 !! rid =
  Postprocess.response_batch st !! rid.
Proof.
  intros Hrid. unfold Postprocess. apply for_each_frame.
  by apply untracked_not_in_entries.
Qed.

Lemma postprocess_writes_tracked_only_witness :
  let st := {| Postprocess.response_batch :=
                 {["a" := make_InferenceResponse "a";
                   "b" := empty_payload_response Demo.payload_type "b"]};
               Postprocess.log := [] |} in
  let data : Tensor (Logits Demo.torch) := {| sizes := [1; 2]; blob := [[1; 5]] |} in
  (forall i, snd (EmptyString, ({[0 := "a"]} : gmap Z string)) !! i <> Some "b") /\
  Postprocess.response_batch
    (Postprocess Demo.payload_type (Demo.folly Demo.complete_config) Demo.torch
       Demo.mapping data (EmptyString, {[0 := "a"]}) st).2 !! "b" =
  Some (empty_payload_response Demo.payload_type "b").
Proof.
  intros st data.
  assert (forall i, snd (EmptyString, ({[0 := "a"]} : gmap Z string)) !! i <> Some "b")
    as Hb.
  { intros i Hi. simpl in Hi. apply lookup_singleton_Some in Hi.
    destruct Hi as [_ Hi]. discriminate. }
  split; [exact Hb|].
  rewrite (postprocess_writes_tracked_only Demo.payload_type
             (Demo.folly Demo.complete_config) Demo.torch Demo.mapping data
             (EmptyString, {[0 := "a"]}) st "b" Hb).
  reflexivity.
Defined.

Lemma NoDup_fmap_eq {A B} (f : A -> B) (l : list A) x y :
  NoDup (f <$> l) -> x ∈ l -> y ∈ l -> f x = f y -> x = y.
Proof.
  intros Hnd Hx Hy Hf.
  apply list_elem_of_lookup in Hx, Hy. destruct Hx as [i Hi]. destruct Hy as [j Hj].
  assert ((f <$> l) !! i = Some (f x)) as Hi' by by rewrite list_lookup_fmap, Hi.
  assert ((f <$> l) !! j = Some (f x)) as Hj' by by rewrite list_lookup_fmap, Hj, Hf.
  pose proof (NoDup_lookup _ _ _ _ Hnd Hi' Hj') as ->. congruence.
Qed.

(** X10. In a batch with pairwise distinct ids, a request that
    [Preprocess] did not encode keeps the status 500 response it got there:
    whatever the engine output is and however [Postprocess] ends, the
    response under its id is afterwards the one [Preprocess] left. *)
Theorem rejected_request_keeps_response (PT : PayloadType) (tokenizer_ : Tokenizer)
    (max_length_ : Z) (F : Folly) (T : Torch) (mapping_json_ : dynamic F)
    (first0 : string) (rb : gmap string InferenceResponse)
    (batch : list InferenceRequest) (data : Tensor (Logits T))
    (r : InferenceRequest) :
  NoDup (request_id <$> batch) ->
  r ∈ batch ->
  encoded PT tokenizer_ r = None ->
  let pre := Preprocess.final
               (Preprocess PT tokenizer_ max_length_ (first0, ∅) batch rb) in
  let st0 := {| Postprocess.response_batch := Preprocess.response_batch pre;
                Postprocess.log := Preprocess.log pre |} in
  exists resp a,
    Preprocess.response_batch pre !! request_id r = Some resp /\
    answer resp = Some a /\ code a = 500 /\
    Postprocess.response_batch
      (Postprocess PT F T mapping_json_ data
         (Preprocess.first pre, Preprocess.second pre) st0).2 !! request_id r =
    Some resp.
Proof.
  intros Hnd Hr Henc pre st0.
  assert (Preprocess.response_batch pre !! request_id r =
            Some (Preprocess_response PT tokenizer_ r)) as Hresp.
  { subst pre. unfold Preprocess. simpl. by apply Preprocess_response_of_request. }
  destruct (Preprocess_response_answer PT tokenizer_ r) as [Hnone H500].
  destruct (answer (Preprocess_response PT tokenizer_ r)) as [a|] eqn:Ha.
  2:{ destruct (proj1 Hnone eq_refl) as [t Ht]. congruence. }
  exists (Preprocess_response PT tokenizer_ r), a.
  split_and!; [done|done|by apply H500|].
  unfold Postprocess. rewrite for_each_frame; [done|].
  apply untracked_not_in_entries. intros i Hi. simpl in Hi.
  subst pre. unfold Preprocess in Hi. simpl in Hi. rewrite loop_second in Hi.
  simpl in Hi. apply tracker_value in Hi.
  apply list_elem_of_fmap in Hi. destruct Hi as (r' & Hid & Hr').
  pose proof (encoded_requests_encoded PT tokenizer_ r' batch Hr') as [t Ht].
  apply encoded_requests_subseteq in Hr'.
  assert (r = r') as <- by by eapply (NoDup_fmap_eq request_id batch).
  congruence.
Qed.

Lemma rejected_request_keeps_response_witness :
  let batch := [Demo.request "a" "hi"; Demo.request_without_payload "b"] in
  let data : Tensor (Logits Demo.torch) := {| sizes := [1; 3]; blob := [[1; 5; 9]] |} in
  let pre := Preprocess.final
               (Preprocess Demo.payload_type Demo.tokenizer 4 (EmptyString, ∅) batch ∅) in
  NoDup (request_id <$> batch) /\
  Demo.request_without_payload "b" ∈ batch /\
  encoded Demo.payload_type Demo.tokenizer (Demo.request_without_payload "b") = None /\
  exists resp a,
    Preprocess.response_batch pre !! "b" = Some resp /\
    answer resp = Some a /\ code a = 500 /\
    Postprocess.response_batch
      (Postprocess Demo.payload_type (Demo.folly Demo.complete_config) Demo.torch
         Demo.mapping data (Preprocess.first pre, Preprocess.second pre)
         {| Postprocess.response_batch := Preprocess.response_batch pre;
            Postprocess.log := Preprocess.log pre |}).2 !! "b" = Some resp.
Proof.
  intros batch data pre.
  assert (NoDup (request_id <$> batch)) as Hnd.
  { refine (bool_decide_unpack _ _). vm_compute. exact I. }
  assert (Demo.request_without_payload "b" ∈ batch) as Hin.
  { right. left. }
  split; [exact Hnd|]. split; [exact Hin|]. split; [reflexivity|].
  apply (rejected_request_keeps_response Demo.payload_type Demo.tokenizer 4
           (Demo.folly Demo.complete_config) Demo.torch Demo.mapping EmptyString ∅
           batch data (Demo.request_without_payload "b") Hnd Hin eq_refl).
Defined.

Lemma last_occurrence {A} (l : list (A * string)) rid :
  rid ∈ l.*2 -> exists l1 i l2, l = l1 ++ (i, rid) :: l2 /\ rid ∉ l2.*2.
Proof.
  induction l as [|[i0 rid0] l IH]; intros Hrid; [by apply elem_of_nil in Hrid|].
  destruct (decide (rid ∈ l.*2)) as [Hin|Hnin].
  - destruct (IH Hin) as (l1 & i & l2 & -> & Hl2).
    by exists ((i0, rid0) :: l1), i, l2.
  - rewrite fmap_cons in Hrid. apply elem_of_cons in Hrid.
    destruct Hrid as [->|Hrid]; [|done]. by exists [], i0, l.
Qed.

(** X11. When the engine output has none of the rows the tracker names
    (every tracked row index lies beyond the rows of the tensor) and every
    tracked id has a response, [Postprocess] returns, and every tracked
    request is answered with status 500 and the message of the handler for
    [c10::Error]: a row that is missing from the output is a per-row failure,
    not the end of the batch. *)
Theorem missing_output_rows_answered (PT : PayloadType) (F : Folly) (T : Torch)
    (mapping_json_ : dynamic F) (data : Tensor (Logits T))
    (idx_to_req_id : string * gmap Z string) (st : Postprocess.state) :
  (forall i rid, snd idx_to_req_id !! i = Some rid ->
     (length (blob data) <= Z.to_nat i)%nat) ->
  (forall i rid, snd idx_to_req_id !! i = Some rid ->
     exists r0, Postprocess.response_batch st !! rid = Some r0 /\
                response_request_id r0 = rid) ->
  exists st',
    Postprocess PT F T mapping_json_ data idx_to_req_id st = (Returned tt, st') /\
    forall i rid,
      snd idx_to_req_id !! i = Some rid -> 0 <= i < 256 ->
      Postprocess.response_batch st' !! rid =
      Some {| response_request_id := rid;
              answer := Some {| code := 500; header_key := "data_type";
                                header_val := kDATA_TYPE_STRING PT;
                                msg := "c10 error, failed to postprocess tensor" |} |}.
Proof.
  intros Hrows Hslots.
  assert (forall i rid, (i, rid) ∈ entries (snd idx_to_req_id) ->
            decode_row F T mapping_json_ data i =
            Failed (c10_Error "index out of range")) as Hdecode.
  { intros i rid Hi. apply elem_of_entries in Hi. destruct Hi as [_ Hi].
    unfold decode_row, select.
    by rewrite (proj2 (lookup_ge_None _ _) (Hrows i rid Hi)). }
  destruct (for_each_Postprocess_kv PT F T mapping_json_ data
              (entries (snd idx_to_req_id)) st) as (st' & Hrun & _ & Hlast).
  { apply Forall_forall. intros [i rid] Hi p. simpl.
    by rewrite (Hdecode i rid Hi). }
  { intros [i rid] Hi. simpl. apply elem_of_entries in Hi. destruct Hi as [_ Hi].
    by apply (Hslots i). }
  exists st'. split; [exact Hrun|].
  intros i rid Hi Hrange.
  assert (rid ∈ (entries (snd idx_to_req_id)).*2) as Hin.
  { apply list_elem_of_fmap. exists (i, rid). split; [done|].
    by apply elem_of_entries. }
  apply last_occurrence in Hin. destruct Hin as (l1 & j & l2 & Hl & Hl2).
  rewrite (Hlast l1 j rid l2 Hl Hl2).
  rewrite (Hdecode j rid); [done|].
  rewrite Hl. apply elem_of_app. right. by left.
Qed.

Lemma missing_output_rows_answered_witness :
  let st := {| Postprocess.response_batch := {["a" := make_InferenceResponse "a"]};
               Postprocess.log := [] |} in
  let data : Tensor (Logits Demo.torch) := {| sizes := [0; 2]; blob := [] |} in
  let tracker : gmap Z string := {[0 := "a"]} in
  (forall i rid, tracker !! i = Some rid -> (length (blob data) <= Z.to_nat i)%nat) /\
  (forall i rid, tracker !! i = Some rid ->
     exists r0, Postprocess.response_batch st !! rid = Some r0 /\
                response_request_id r0 = rid) /\
  exists st',
    Postprocess Demo.payload_type (Demo.folly Demo.complete_config) Demo.torch
      Demo.mapping data (EmptyString, tracker) st = (Returned tt, st') /\
    Postprocess.response_batch st' !! "a" =
      Some {| response_request_id := "a";
              answer := Some {| code := 500; header_key := "data_type";
                                header_val := "string";
                                msg := "c10 error, failed to postprocess tensor" |} |}.
Proof.
  intros st data tracker.
  assert (forall i rid, tracker !! i = Some rid ->
            (length (blob data) <= Z.to_nat i)%nat) as Hrows.
  { intros i rid _. simpl. lia. }
  assert (forall i rid, tracker !! i = Some rid ->
            exists r0, Postprocess.response_batch st !! rid = Some r0 /\
                       response_request_id r0 = rid) as Hslots.
  { intros i rid Hi. apply lookup_singleton_Some in Hi. destruct Hi as [_ <-].
    by exists (make_InferenceResponse "a"). }
  split; [exact Hrows|]. split; [exact Hslots|].
  destruct (missing_output_rows_answered Demo.payload_type
              (Demo.folly Demo.complete_config) Demo.torch Demo.mapping data
              (EmptyString, tracker) st Hrows Hslots) as (st' & Hrun & Hall).
  exists st'. split; [exact Hrun|].
  apply (Hall 0 "a"); [reflexivity|lia].
Defined.

(** X12. [Postprocess] needs a response for every id the tracker holds: if
    the response batch has none for the id of some entry, the subscript
    yields a null pointer and the call does not return. *)
Theorem postprocess_needs_responses (PT : PayloadType) (F : Folly) (T : Torch)
    (mapping_json_ : dynamic F) (data : Tensor (Logits T))
    (idx_to_req_id : string * gmap Z string) (st : Postprocess.state)
    (i : Z) (rid : string) :
  snd idx_to_req_id !! i = Some rid ->
  0 <= i < 256 ->
  Postprocess.response_batch st !! rid = None ->
  forall st', Postprocess PT F T mapping_json_ data idx_to_req_id st <> (Returned tt, st').
Proof.
  intros Hi Hrange Hnone st'. unfold Postprocess.
  apply (for_each_needs_slots PT F T mapping_json_ data _ st (i, rid));
    [by apply elem_of_entries|done].
Qed.

Lemma postprocess_needs_responses_witness :
  let st := {| Postprocess.response_batch := ∅; Postprocess.log := [] |} in
  let data : Tensor (Logits Demo.torch) := {| sizes := [1; 2]; blob := [[1; 5]] |} in
  snd (EmptyString, ({[0 := "a"]} : gmap Z string)) !! 0 = Some "a" /\
  0 <= 0 < 256 /\
  Postprocess.response_batch st !! "a" = None /\
  forall st',
    Postprocess Demo.payload_type (Demo.folly Demo.complete_config) Demo.torch
      Demo.mapping data (EmptyString, {[0 := "a"]}) st <> (Returned tt, st').
Proof.
  intros st data. split; [reflexivity|]. split; [lia|]. split; [reflexivity|].
  apply (postprocess_needs_responses Demo.payload_type (Demo.folly Demo.complete_config)
           Demo.torch Demo.mapping data (EmptyString, {[0 := "a"]}) st 0 "a");
    [reflexivity|lia|reflexivity].
Defined.

(** ** Inference *)

(** X13. No exception escapes [Inference] and it writes no response. It
    hands the caller a tensor exactly when the engine returned a non-empty
    vector, whose first tensor it is, and it logs exactly when the engine
    threw, in which case the caller receives no defined value and every
    response is what it was before the call. *)
Theorem inference_contains_failures (E : Engine) (model : Model E)
    (inputs : Tensor (Tensor Z) * Tensor Z) (device : Device)
    (st : Postprocess.state) :
  exists v st',
    Inference E model inputs device st = (Returned v, st') /\
    Postprocess.response_batch st' = Postprocess.response_batch st /\
    (forall output,
       v = Value output <-> exists rest, run E model inputs = inl (output :: rest)) /\
    (Postprocess.log st' = Postprocess.log st <->
     exists outputs, run E model inputs = inl outputs) /\
    ((exists e, run E model inputs = inr e) ->
     v = Undefined no_return_statement /\
     exists entry, Postprocess.log st' = Postprocess.log st ++ [entry]).
Proof.
  unfold Inference. unfold_monad.
  unfold write_log, Postprocess.postprocess_logging.
  assert (forall (l : list log_entry) e, l ++ [e] <> l) as Hlog.
  { intros l e Heq. apply (f_equal length) in Heq.
    rewrite length_app in Heq. simpl in Heq. lia. }
  assert ((if is_cuda device then model else model) = model) as ->
    by by destruct (is_cuda device).
  destruct (run E model inputs) as [[|output rest]|[w|m]]; simpl;
    eexists _, _; (split; [reflexivity|]); simpl; (split; [reflexivity|]).
  - split_and!.
    + intros o. split; [done|]. by intros [rest [=]].
    + split; [by eexists|done].
    + by intros [e [=]].
  - split_and!.
    + intros o. split; [intros [= <-]; by eexists|]. by intros [rest' [= <- _]].
    + split; [by eexists|done].
    + by intros [e [=]].
  - split_and!.
    + intros o. split; [done|]. by intros [rest [=]].
    + split; [intros Heq; by apply Hlog in Heq|]. by intros [outputs [=]].
    + intros _. split; [done|]. by eexists.
  - split_and!.
    + intros o. split; [done|]. by intros [rest [=]].
    + split; [intros Heq; by apply Hlog in Heq|]. by intros [outputs [=]].
    + intros _. split; [done|]. by eexists.
Qed.

(** ** Loading, outcome by outcome *)

Lemma int_range z : -2147483648 <= int z < 2147483648.
Proof.
  unfold int. pose proof (Z.mod_pos_bound (z + 2147483648) 4294967296). lia.
Qed.

Ltac load_step :=
  match goal with
  | |- context [GetTorchDevice ?I ?r] =>
      destruct (GetTorchDevice I r) as [?|[?|?]] eqn:?
  | |- context [readFile ?F ?p] => destruct (readFile F p) as [?|] eqn:?
  | |- context [parseJson ?F ?c] => destruct (parseJson F c) as [?|[?|?]] eqn:?
  | |- context [find ?F ?c ?k] => destruct (find F c k) as [?|] eqn:?
  | |- context [asInt ?F ?v] => destruct (asInt F v) as [?|[?|?]] eqn:?
  | |- context [asString ?F ?v] => destruct (asString F v) as [?|[?|?]] eqn:?
  | |- context [FromBlobJSON ?I ?b] => destruct (FromBlobJSON I b) as [?|[?|?]] eqn:?
  | |- context [is_cuda ?d] => destruct (is_cuda d) eqn:?
  | |- context [AOTIModelContainerRunnerCuda ?I ?p ?n ?d] =>
      destruct (AOTIModelContainerRunnerCuda I p n d) as [?|[?|?]] eqn:?
  | |- context [AOTIModelContainerRunnerCpu ?I ?p] =>
      destruct (AOTIModelContainerRunnerCpu I p) as [?|[?|?]] eqn:?
  end; simpl.

(** X14. A handler that [LoadModel] returns from is completely loaded: the
    device was resolved, the label mapping and the config were read and
    parsed, the config has all three required keys, the four fields of the
    handler are assigned, with [max_length_] the config value converted to a
    32-bit [int], the engine is the one for the device, built on the path of
    "model_so_path" under the model directory, and nothing was logged. *)
Theorem loaded_handler_is_complete (F : Folly) (I : Inductor)
    (load_model_request : LoadModelRequest) (st st' : LoadModel.state F)
    (runner : Runner I) (device : Device) :
  LoadModel F I load_model_request st = (Returned (runner, device), st') ->
  GetTorchDevice I load_model_request = inl device /\
  exists mapping config tokenizer n so,
    st' = LoadModel.mkState (Some mapping) (Some config) (int n) (Some tokenizer)
            (LoadModel.log st) /\
    -2147483648 <= LoadModel.max_length_ st' < 2147483648 /\
    (exists content,
       readFile F (format_path (model_dir load_model_request) "index_to_name.json") =
         Some content /\ parseJson F content = inl mapping) /\
    (exists content,
       readFile F (format_path (model_dir load_model_request) "config.json") =
         Some content /\ parseJson F content = inl config) /\
    (exists v, find F config "max_length" = Some v /\ asInt F v = inl n) /\
    is_Some (find F config "tokenizer_path") /\
    (exists v, find F config "model_so_path" = Some v /\ asString F v = inl so) /\
    (if is_cuda device
     then AOTIModelContainerRunnerCuda I
            (format_path (model_dir load_model_request) so) 1 (str device)
     else AOTIModelContainerRunnerCpu I
            (format_path (model_dir load_model_request) so)) = inl runner.
Proof.
  unfold LoadModel, LoadJsonFile, GetJsonValue, deref. unfold_monad.
  unfold write_log, LoadModel.loadmodel_logging. simpl.
  repeat (load_step; try (intros H; discriminate H));
    intros [= <- <- <-]; try congruence;
    (split; [reflexivity|]);
    eexists _, _, _, _, _; (split; [reflexivity|]); simpl;
    (split; [apply int_range|]);
    repeat match goal with H : is_cuda _ = _ |- _ => rewrite H end;
    split_and!; eauto.
Qed.

Lemma loaded_handler_is_complete_witness :
  LoadModel (Demo.folly Demo.complete_config) Demo.inductor Demo.load_model_request
    (Demo.unloaded Demo.complete_config) =
  (Returned ("model/model.so", {| is_cuda := false; str := "cpu" |}),
   @LoadModel.mkState (Demo.folly Demo.complete_config)
     (Some Demo.mapping) (Some Demo.complete_config) 8 (Some Demo.tokenizer) []) /\
  GetTorchDevice Demo.inductor Demo.load_model_request =
    inl {| is_cuda := false; str := "cpu" |}.
Proof.
  assert (LoadModel (Demo.folly Demo.complete_config) Demo.inductor
            Demo.load_model_request (Demo.unloaded Demo.complete_config) =
          (Returned ("model/model.so", {| is_cuda := false; str := "cpu" |}),
           @LoadModel.mkState (Demo.folly Demo.complete_config)
             (Some Demo.mapping) (Some Demo.complete_config) 8
             (Some Demo.tokenizer) [])) as Hload by (vm_compute; reflexivity).
  split; [exact Hload|].
  exact (proj1 (loaded_handler_is_complete _ _ _ _ _ _ _ Hload)).
Defined.


(** ** Where Postprocess stops *)

Lemma for_each_app {S X} (body : X -> M S unit) (l1 l2 : list X) (st : S) :
  for_each body (l1 ++ l2) st =
  bind (for_each body l1) (fun _ => for_each body l2) st.
Proof.
  revert st. induction l1 as [|x l1 IH]; intros st; simpl; [done|].
  unfold bind in *. destruct (body x st) as [[a|e|c] st1]; [|done|done].
  apply IH.
Qed.

(** X16. [Postprocess] visits the tracker in ascending key order and stops
    at the first row whose predicted index has no label: the rows before it
    have been answered, the lookup logs the missing field, and the process is
    terminated there, so that the response of that row and of every id that
    only later rows name is left as it was. *)
Theorem postprocess_stops_at_missing_label (PT : PayloadType) (F : Folly) (T : Torch)
    (mapping_json_ : dynamic F) (data : Tensor (Logits T))
    (idx_to_req_id : string * gmap Z string) (st : Postprocess.state)
    (before : list (Z * string)) (i : Z) (rid : string)
    (after : list (Z * string)) (p : string) :
  entries (snd idx_to_req_id) = before ++ (i, rid) :: after ->
  Forall (fun kv => forall p', decode_row F T mapping_json_ data kv.1 <> NoLabel p')
         before ->
  (forall kv, kv ∈ before ->
     exists r0, Postprocess.response_batch st !! kv.2 = Some r0 /\
                response_request_id r0 = kv.2) ->
  decode_row F T mapping_json_ data i = NoLabel p ->
  exists st',
    Postprocess PT F T mapping_json_ data idx_to_req_id st =
      (Crashed std_terminate, st') /\
    (forall l1 j rid' l2, before = l1 ++ (j, rid') :: l2 -> rid' ∉ l2.*2 ->
       Postprocess.response_batch st' !! rid' =
       row_response PT rid' (decode_row F T mapping_json_ data j)) /\
    (forall rid', rid' ∉ before.*2 ->
       Postprocess.response_batch st' !! rid' =
       Postprocess.response_batch st !! rid') /\
    last (Postprocess.log st') =
      Some (ERROR "Required field {} not found in JSON." [p]).
Proof.
  intros Hentries Hlabels Hslots Hmissing.
  destruct (for_each_Postprocess_kv PT F T mapping_json_ data before st Hlabels Hslots)
    as (st1 & Hrun & Hother & Hlast).
  unfold Postprocess. rewrite Hentries, for_each_app. unfold bind at 1.
  rewrite Hrun. simpl. unfold bind.
  rewrite (Postprocess_kv_no_label PT F T mapping_json_ data i rid st1 p Hmissing).
  eexists. split; [reflexivity|]. simpl. split_and!.
  - exact Hlast.
  - exact Hother.
  - by rewrite last_snoc.
Qed.

Lemma postprocess_stops_at_missing_label_witness :
  let st := {| Postprocess.response_batch :=
                 {["a" := make_InferenceResponse "a"; "c" := make_InferenceResponse "c"]};
               Postprocess.log := [] |} in
  let data : Tensor (Logits Demo.torch) :=
    {| sizes := [2; 3]; blob := [[7; 2; 0]; [1; 5; 9]] |} in
  let tracker : gmap Z string := {[0 := "a"; 1 := "c"]} in
  entries tracker = [(0, "a")] ++ (1, "c") :: [] /\
  decode_row (Demo.folly Demo.complete_config) Demo.torch Demo.mapping data 1 =
    NoLabel "2" /\
  exists st',
    Postprocess Demo.payload_type (Demo.folly Demo.complete_config) Demo.torch
      Demo.mapping data (EmptyString, tracker) st = (Crashed std_terminate, st') /\
    Postprocess.response_batch st' !! "c" = Some (make_InferenceResponse "c") /\
    Postprocess.response_batch st' !! "a" =
      Some {| response_request_id := "a";
              answer := Some {| code := 200; header_key := "data_type";
                                header_val := "string"; msg := "negative" |} |}.
Proof.
  intros st data tracker.
  assert (entries tracker = [(0, "a")] ++ (1, "c") :: []) as Hentries
    by (vm_compute; reflexivity).
  assert (decode_row (Demo.folly Demo.complete_config) Demo.torch Demo.mapping data 1 =
            NoLabel "2") as Hmissing by reflexivity.
  split; [exact Hentries|]. split; [exact Hmissing|].
  destruct (postprocess_stops_at_missing_label Demo.payload_type
              (Demo.folly Demo.complete_config) Demo.torch Demo.mapping data
              (EmptyString, tracker) st [(0, "a")] 1 "c" [] "2" Hentries)
    as (st' & Hrun & Hbefore & Hother & _).
  - repeat constructor. intros p'. vm_compute. discriminate.
  - intros kv Hkv. apply list_elem_of_singleton in Hkv. subst kv.
    by exists (make_InferenceResponse "a").
  - exact Hmissing.
  - exists st'. split; [exact Hrun|]. split.
    + rewrite Hother; [reflexivity|]. simpl. intros Hin.
      apply list_elem_of_singleton in Hin. discriminate.
    + rewrite (Hbefore [] 0 "a" [] eq_refl); [reflexivity|]. apply not_elem_of_nil.
Defined.
